(** * SOL next-day-high predictor: feature pipeline, target codec, fetchers

    A shallow embedding of
      - preprocessing/feature_engineering.py  (ensure_time_and_sort,
        _ema, _sma, build_features_from_ohlcv, FINAL_FEATURES)
      - app/main.py  (_prepare_features, _invert_prediction, predict,
        the anchor cut of predict_sol_at)
      - fetch/kraken_ohlc_solusd.py and fetch/sol_fetch.py
        (get_recent_candles, twice in the former)

    Numbers.  Python floats are modelled without rounding: a finite
    float is a rational [Q], and the three IEEE specials are separate
    constructors of [pyfloat].  A DataFrame cell holding NaN / None / NaT
    is [Missing].  OHLCV cells are finite or missing (section 3 of the
    design document), so the frame never holds an infinity.

    pandas and numpy are libraries, not part of the repository; the few
    operations the code calls (to_datetime, sort_values, rolling mean,
    ewm mean, shift, dropna, dt.month) are written out below from their
    documented behaviour. *)

From Stdlib Require Import ZArith QArith Qround List String Ascii Bool Lia.
From Stdlib Require Import Permutation Sorted.
Import ListNotations.
Open Scope string_scope.
Open Scope Z_scope.

Set Implicit Arguments.

(* ------------------------------------------------------------------ *)
(** ** Exceptions and the error monad *)

Inductive exn : Type :=
| ValueError (msg : string)
| RuntimeError (msg : string)
| HTTPException (status : Z) (detail : string)
| TypeError
| IndexError
| AttributeError
| RequestException.

Inductive result (A : Type) : Type :=
| Ok (a : A)
| Raise (e : exn).
Arguments Ok {A} a.
Arguments Raise {A} e.

Definition bind {A B} (m : result A) (k : A -> result B) : result B :=
  match m with
  | Ok a => k a
  | Raise e => Raise e
  end.

Notation "x <- m ;; k" := (bind m (fun x => k))
  (at level 61, m at next level, right associativity).

(** The error names of the design document, read off the HTTP status and
    detail text raised in app/main.py. *)
Definition detail_at_least_21 :=
  "Please provide at least 21 recent candles for features like volume_sma21.".
Definition detail_not_enough_after_fe :=
  "Not enough history after feature engineering (NaNs after lags/SMAs).".
Definition detail_cannot_invert :=
  "Cannot invert prediction without a valid last high.".
Definition detail_unknown_mode := "Unknown target mode".
Definition detail_no_candles_before :=
  "No candles at or before the requested date.".
Definition detail_insufficient_before :=
  "Insufficient history before the requested date (need >= 21 rows).".
Definition detail_insufficient := "Insufficient history (need >= 21 rows).".
Definition detail_model_failed := "Model prediction failed".

Definition InsufficientHistoryError : exn :=
  HTTPException 400 detail_not_enough_after_fe.
Definition InsufficientHistoryBeforeAnchor : exn :=
  HTTPException 400 detail_insufficient_before.
Definition TooFewCandles : exn := HTTPException 400 detail_at_least_21.
Definition NoDataBeforeAnchorError : exn :=
  HTTPException 404 detail_no_candles_before.
Definition InversionError : exn := HTTPException 400 detail_cannot_invert.
Definition UnsupportedModeError : exn := HTTPException 400 detail_unknown_mode.
Definition ModelInferenceError : exn := HTTPException 500 detail_model_failed.

(* ------------------------------------------------------------------ *)
(** ** Floats *)

Inductive pyfloat : Type :=
| Fin (q : Q)
| PInf
| NInf
| NaN.

Definition isfinite (x : pyfloat) : bool :=
  match x with Fin _ => true | _ => false end.

Definition Qsgn (q : Q) : Z := Z.sgn (Qnum q).

(** IEEE addition and multiplication, exact on finite operands. *)
Definition fadd (x y : pyfloat) : pyfloat :=
  match x, y with
  | NaN, _ | _, NaN => NaN
  | Fin a, Fin b => Fin (a + b)
  | PInf, NInf | NInf, PInf => NaN
  | PInf, _ | _, PInf => PInf
  | NInf, _ | _, NInf => NInf
  end.

Definition finf (s : Z) : pyfloat :=
  match s with
  | Z0 => NaN
  | Zpos _ => PInf
  | Zneg _ => NInf
  end.

Definition fsgn (x : pyfloat) : Z :=
  match x with
  | Fin q => Qsgn q
  | PInf => 1
  | NInf => -1
  | NaN => 0
  end.

Definition fmul (x y : pyfloat) : pyfloat :=
  match x, y with
  | NaN, _ | _, NaN => NaN
  | Fin a, Fin b => Fin (a * b)
  | _, _ => finf (fsgn x * fsgn y)
  end.

(* ------------------------------------------------------------------ *)
(** ** Cells, timestamps, months *)

(** What a cell of a DataFrame column holds.  [Text p] is a string; [p]
    is what pandas' ISO parser reads from it: nothing, or wall-clock
    seconds since 1970-01-01T00:00:00 together with the UTC offset in
    seconds when the string carries one.  [Tstamp wall tz] is a parsed
    timestamp with the same reading. *)
Inductive cell : Type :=
| Missing
| Num (q : Q)
| Text (parse : option (Z * option Z))
| Tstamp (wall : Z) (tz : option Z).

Definition isna (c : cell) : bool :=
  match c with Missing => true | _ => false end.

Definition num_of (c : cell) : option Q :=
  match c with Num q => Some q | _ => None end.

(** float(cell) *)
Definition float_of_cell (c : cell) : pyfloat :=
  match c with Num q => Fin q | _ => NaN end.

(** The i8 value pandas stores and compares: the instant in UTC for an
    aware timestamp, the wall clock for a naive one. *)
Definition i8 (wall : Z) (tz : option Z) : Z :=
  match tz with Some off => wall - off | None => wall end.

(** Month of the civil date of a day count since the epoch (proleptic
    Gregorian calendar). *)
Definition month_of_days (days : Z) : Z :=
  let z := days + 719468 in
  let era := z / 146097 in
  let doe := z - era * 146097 in
  let yoe := (doe - doe / 1460 + doe / 36524 - doe / 146096) / 365 in
  let doy := doe - (365 * yoe + yoe / 4 - yoe / 100) in
  let mp := (5 * doy + 2) / 153 in
  if mp <? 10 then mp + 3 else mp - 9.

(** [.dt.month]: the month on the timestamp's own wall clock. *)
Definition dt_month (c : cell) : cell :=
  match c with
  | Tstamp wall _ => Num (inject_Z (month_of_days (wall / 86400)))
  | _ => Missing
  end.

(* ------------------------------------------------------------------ *)
(** ** DataFrames *)

(** A row maps a column name to its cell; [columns] lists the names that
    exist, in order.  A row's value at a name that is not a column is
    never read. *)
Definition row : Type := string -> cell.

Record frame : Type := mkFrame {
  columns : list string;
  rows : list row
}.

Definition has_col (c : string) (df : frame) : bool :=
  existsb (String.eqb c) (columns df).

Definition upd (r : row) (c : string) (v : cell) : row :=
  fun k => if String.eqb k c then v else r k.

Definition col (c : string) (df : frame) : list cell :=
  map (fun r : row => r c) (rows df).

(** Row-wise assignment of a column of values; a row past the end of the
    values receives NaN, as index alignment gives. *)
Fixpoint zip_upd (c : string) (rs : list row) (vs : list cell) : list row :=
  match rs with
  | [] => []
  | r :: rs' =>
      match vs with
      | [] => upd r c Missing :: zip_upd c rs' []
      | v :: vs' => upd r c v :: zip_upd c rs' vs'
      end
  end.

(** [df[c] = vs] *)
Definition set_col (c : string) (vs : list cell) (df : frame) : frame :=
  {| columns := if has_col c df then columns df else columns df ++ [c];
     rows := zip_upd c (rows df) vs |}.

(* ------------------------------------------------------------------ *)
(** ** pandas.to_datetime *)

Fixpoint mapM {A B} (f : A -> result B) (l : list A) : result (list B) :=
  match l with
  | [] => Ok []
  | a :: l' => b <- f a ;; bs <- mapM f l' ;; Ok (b :: bs)
  end.

(** One value: NaN stays NaT, a timestamp stays, a string is parsed, a
    number is read as nanoseconds since the epoch. *)
Definition parse_cell (c : cell) : result cell :=
  match c with
  | Missing => Ok Missing
  | Tstamp w tz => Ok (Tstamp w tz)
  | Text (Some (w, tz)) => Ok (Tstamp w tz)
  | Text None => Raise (ValueError "Unknown datetime string format")
  | Num q => Ok (Tstamp (Qfloor q / 1000000000) None)
  end.

Definition zones (l : list cell) : list (option Z) :=
  flat_map (fun c => match c with Tstamp _ tz => [tz] | _ => [] end) l.

Definition tz_eqb (a b : option Z) : bool :=
  match a, b with
  | None, None => true
  | Some x, Some y => Z.eqb x y
  | _, _ => false
  end.

Definition uniform_tz (l : list cell) : bool :=
  match zones l with
  | [] => true
  | z :: zs => forallb (tz_eqb z) zs
  end.

(** [pd.to_datetime(col)], no [utc=True]: a column of one zone (all
    naive, or all of one offset) keeps that zone; a column mixing naive
    with aware values, or two offsets, has no datetime dtype and the call
    (or the [.dt] access after it) raises. *)
Definition to_datetime (l : list cell) : result (list cell) :=
  ps <- mapM parse_cell l ;;
  if uniform_tz ps then Ok ps
  else Raise (ValueError "Mixed timezones detected").

(** [pd.to_datetime(x, utc=True)] on one value: naive is localized to
    UTC, aware is converted to UTC. *)
Definition to_utc_cell (c : cell) : result cell :=
  p <- parse_cell c ;;
  match p with
  | Tstamp w tz => Ok (Tstamp (i8 w tz) (Some 0))
  | other => Ok other
  end.

Definition to_datetime_utc (l : list cell) : result (list cell) :=
  mapM to_utc_cell l.

(* ------------------------------------------------------------------ *)
(** ** DataFrame.sort_values *)

(** [sort_values] is called without [kind=], so numpy's default
    "quicksort" orders the keys: the result is an ordered rearrangement
    of the input, and nothing is promised about the order of equal keys
    (only kind="mergesort" / "stable" promise that). *)
Record sort_kind : Type := mkSortKind {
  sort_by : forall A : Type, (A -> Z) -> list A -> list A;
  sort_by_perm : forall A (key : A -> Z) l, Permutation (sort_by key l) l;
  sort_by_sorted :
    forall A (key : A -> Z) l,
      StronglySorted (fun x y => key x <= key y) (sort_by key l)
}.

Definition time_key (c : cell) : Z :=
  match c with Tstamp w tz => i8 w tz | _ => 0 end.

(** Rows with NaT in the key column go last ([na_position="last"]), in
    their input order. *)
Definition sort_values (k : sort_kind) (c : string) (rs : list row)
  : list row :=
  sort_by k (fun r : row => time_key (r c))
          (filter (fun r : row => negb (isna (r c))) rs)
  ++ filter (fun r : row => isna (r c)) rs.

(* ------------------------------------------------------------------ *)
(** ** preprocessing/feature_engineering.py *)

Definition FINAL_FEATURES : list string :=
  [ "close"; "open"; "low";
    "close_ema3"; "low_ema3";
    "open_sma3"; "open_sma7";
    "high_lag1"; "high_lag2";
    "low_lag1"; "low_lag2";
    "close_lag3";
    "volume"; "volume_sma21";
    "month" ].

Definition no_time_column :=
  "No time column found. Provide 'timeOpen' or 'time'.".

(** [ensure_time_and_sort(df, time_col, fallback_time_col)], with
    [group_by] left at its default [None] as every caller in the
    repository does.  The function assigns into the frame it was handed
    before [sort_values] makes a new one, so it returns a pair: the
    caller's frame as the call leaves it, and the outcome. *)
Definition ensure_time_and_sort (k : sort_kind) (df : frame)
    (time_col fallback_time_col : string) : frame * result frame :=
  let go (df1 : frame) : frame * result frame :=
    match to_datetime (col time_col df1) with
    | Raise e => (df1, Raise e)
    | Ok ts =>
        let df2 := set_col time_col ts df1 in
        let df3 := {| columns := columns df2;
                      rows := sort_values k time_col (rows df2) |} in
        (df2, Ok (set_col "month" (map dt_month (col time_col df3)) df3))
    end in
  if has_col time_col df then go df
  else if has_col fallback_time_col df
       then go (set_col time_col (col fallback_time_col df) df)
       else (df, Raise (ValueError no_time_column)).

(** [series.ewm(span=span, adjust=False).mean()].  The running state is
    the weighted mean so far (none before the first observation) and the
    weight of the history; a NaN input repeats the last mean and lets the
    history's weight decay ([ignore_na=False]). *)
Definition ewm_step (alpha : Q) (st : option Q * Q) (c : cell)
  : option Q * Q :=
  let '(weighted, old_wt) := st in
  match weighted, num_of c with
  | Some w, Some x =>
      let ow := (old_wt * (1 - alpha))%Q in
      (Some (if Qeq_bool w x then w
             else ((ow * w + alpha * x) / (ow + alpha))%Q), 1%Q)
  | Some w, None => (Some w, (old_wt * (1 - alpha))%Q)
  | None, Some x => (Some x, old_wt)
  | None, None => (None, old_wt)
  end.

Definition cell_of_opt (o : option Q) : cell :=
  match o with Some q => Num q | None => Missing end.

Fixpoint ewm_from (alpha : Q) (st : option Q * Q) (l : list cell)
  : list cell :=
  match l with
  | [] => []
  | c :: l' =>
      let st' := ewm_step alpha st c in
      cell_of_opt (fst st') :: ewm_from alpha st' l'
  end.

Definition _ema (series : list cell) (span : Z) : list cell :=
  ewm_from (2 / (inject_Z span + 1))%Q (None, 1%Q) series.

(** The observations (non-NaN numbers) of a stretch of a column. *)
Definition observations (l : list cell) : list Q :=
  flat_map (fun c => match num_of c with Some q => [q] | None => [] end) l.

Definition Qsum (l : list Q) : Q := fold_right Qplus 0%Q l.

(** Mean of the observations; NaN when there are fewer than
    [min_periods = 1]. *)
Definition mean_min1 (l : list cell) : cell :=
  match observations l with
  | [] => Missing
  | q :: qs => Num (Qsum (q :: qs) / inject_Z (Z.of_nat (List.length (q :: qs))))%Q
  end.

(** The [window] cells ending at position [i]. *)
Definition window_at (window i : nat) (l : list cell) : list cell :=
  skipn (S i - window) (firstn (S i) l).

(** [series.rolling(window, min_periods=1).mean()] *)
Definition _sma (series : list cell) (window : nat) : list cell :=
  map (fun i => mean_min1 (window_at window i series))
      (seq 0 (List.length series)).

(** [series.shift(k)] *)
Definition shift (k : nat) (series : list cell) : list cell :=
  firstn (List.length series) (repeat Missing k ++ series).

Definition missing_ohlc := "Missing required OHLC columns".

(** The column assignments of [build_features_from_ohlcv], from the
    EMAs to the lags, on the normalized frame. *)
Definition add_features (df : frame) : frame :=
  let df := set_col "close_ema3" (_ema (col "close" df) 3) df in
  let df := set_col "low_ema3" (_ema (col "low" df) 3) df in
  let df := set_col "open_sma3" (_sma (col "open" df) 3) df in
  let df := set_col "open_sma7" (_sma (col "open" df) 7) df in
  let df :=
    if has_col "volume" df
    then set_col "volume_sma21" (_sma (col "volume" df) 21) df
    else set_col "volume_sma21" (repeat Missing (List.length (rows df))) df in
  let df := set_col "high_lag1" (shift 1 (col "high" df)) df in
  let df := set_col "high_lag2" (shift 2 (col "high" df)) df in
  let df := set_col "low_lag1" (shift 1 (col "low" df)) df in
  let df := set_col "low_lag2" (shift 2 (col "low" df)) df in
  set_col "close_lag3" (shift 3 (col "close" df)) df.

(** [build_features_from_ohlcv(df)]: the caller's frame as the call
    leaves it, and the outcome. *)
Definition build_features_from_ohlcv (k : sort_kind) (df : frame)
  : frame * result frame :=
  if negb (forallb (fun c => has_col c df) ["open"; "high"; "low"; "close"])
  then (df, Raise (ValueError missing_ohlc))
  else
    let '(caller, r) := ensure_time_and_sort k df "timeOpen" "time" in
    (caller, df <- r ;; Ok (add_features df)).

(* ------------------------------------------------------------------ *)
(** ** app/main.py: helpers *)

(** [df.dropna(subset=subset)] *)
Definition complete (subset : list string) (r : row) : bool :=
  forallb (fun c => negb (isna (r c))) subset.

Definition dropna (subset : list string) (df : frame) : frame :=
  {| columns := columns df; rows := filter (complete subset) (rows df) |}.

(** [df[names]] *)
Definition select (names : list string) (df : frame) : frame :=
  {| columns := names; rows := rows df |}.

Definition _prepare_features (k : sort_kind) (df_in : frame)
  : frame * result frame :=
  let '(caller, r) := build_features_from_ohlcv k df_in in
  (caller,
   df_feat <- r ;;
   let df_feat := dropna FINAL_FEATURES df_feat in
   Ok (select FINAL_FEATURES df_feat)).

(** [_invert_prediction(yhat_raw, last_high, mode)]; [np_exp] is
    numpy's exponential. *)
Definition _invert_prediction (np_exp : pyfloat -> pyfloat)
    (yhat_raw : pyfloat) (last_high : option pyfloat) (mode : string)
  : result pyfloat :=
  if String.eqb mode "level" then Ok yhat_raw
  else
    match last_high with
    | None => Raise (HTTPException 400 detail_cannot_invert)
    | Some lh =>
        if negb (isfinite lh)
        then Raise (HTTPException 400 detail_cannot_invert)
        else if String.eqb mode "delta" then Ok (fadd lh yhat_raw)
        else if String.eqb mode "logdiff" then Ok (fmul (np_exp yhat_raw) lh)
        else Raise (HTTPException 400 detail_unknown_mode)
    end.

(** [str.lower()] on the ASCII range. *)
Definition lower_ascii (a : ascii) : ascii :=
  let n := nat_of_ascii a in
  if (65 <=? n)%nat && (n <=? 90)%nat then ascii_of_nat (n + 32) else a.

Fixpoint lower (s : string) : string :=
  match s with
  | EmptyString => EmptyString
  | String a s' => String (lower_ascii a) (lower s')
  end.

(* ------------------------------------------------------------------ *)
(** ** app/main.py: schemas *)

(** [timeOpen] is a string, kept as what the timestamp parser reads from
    it (see [Text]). *)
Record Candle : Type := mkCandle {
  timeOpen : option (Z * option Z);
  open : Q;
  high : Q;
  low : Q;
  close : Q;
  volume : option Q
}.

Record PredictRequest : Type := mkPredictRequest {
  candles : list Candle;
  target_mode : option string
}.

Record PredictResponse : Type := mkPredictResponse {
  predicted_high_next_day : pyfloat;
  response_target_mode : string;
  last_known_high : option pyfloat;
  features_used : list string;
  feature_vector_tail : list (string * option pyfloat)
}.

Record PredictTokenResponse : Type := mkPredictTokenResponse {
  base : PredictResponse;
  token : string;
  history_rows_used : nat
}.

(** [c.dict()] *)
Definition dict (c : Candle) : row :=
  fun k =>
    if String.eqb k "timeOpen" then Text (timeOpen c)
    else if String.eqb k "open" then Num (open c)
    else if String.eqb k "high" then Num (high c)
    else if String.eqb k "low" then Num (low c)
    else if String.eqb k "close" then Num (close c)
    else if String.eqb k "volume" then cell_of_opt (volume c)
    else Missing.

(** [pd.DataFrame(records)]: the columns are the keys of the records; no
    record, no column. *)
Definition DataFrame (records : list Candle) : frame :=
  {| columns :=
       match records with
       | [] => []
       | _ => ["timeOpen"; "open"; "high"; "low"; "close"; "volume"]
       end;
     rows := map dict records |}.

Definition missing_required_columns := "Missing required columns".

(** [{k: None if pd.isna(v) else float(v) for k, v in row.items()}] *)
Definition to_feature_dict (X : frame) (r : row)
  : list (string * option pyfloat) :=
  map (fun k => (k, if isna (r k) then None else Some (float_of_cell (r k))))
      (columns X).

(** The external model: it reads the feature values of one row, in
    column order, and returns a float or raises. *)
Definition model_t : Type := list cell -> result pyfloat.

Definition model_predict (model : model_t) (X : frame) (r : row)
  : result pyfloat :=
  match model (map r (columns X)) with
  | Ok y => Ok y
  | Raise _ => Raise (HTTPException 500 detail_model_failed)
  end.

Definition empty (df : frame) : bool :=
  match rows df with [] => true | _ => false end.

Definition last_row (df : frame) : row := last (rows df) (fun _ => Missing).

(** The part the three endpoints share, from [last_high = ...] to the
    response: [df] is the normalized (and, for the anchored endpoint,
    cut) frame. *)
Definition predict_on (k : sort_kind) (np_exp : pyfloat -> pyfloat)
    (model : model_t) (mode : string) (df : frame) : result PredictResponse :=
  let last_high := float_of_cell (last_row df "high") in
  X <- snd (_prepare_features k df) ;;
  if empty X then Raise (HTTPException 400 detail_not_enough_after_fe)
  else
    let x_tail := last_row X in
    yhat_raw <- model_predict model X x_tail ;;
    yhat <- _invert_prediction np_exp yhat_raw (Some last_high) mode ;;
    Ok {| predicted_high_next_day := yhat;
          response_target_mode := mode;
          last_known_high := Some last_high;
          features_used := FINAL_FEATURES;
          feature_vector_tail := to_feature_dict X x_tail |}.

(** [POST /predict] *)
Definition predict (k : sort_kind) (np_exp : pyfloat -> pyfloat)
    (model : model_t) (MODEL_TARGET_MODE : string) (req : PredictRequest)
  : result PredictResponse :=
  let mode :=
    lower (match target_mode req with
           | Some m => m
           | None => MODEL_TARGET_MODE
           end) in
  if (List.length (candles req) <? 21)%nat
  then Raise (HTTPException 400 detail_at_least_21)
  else
    let df := DataFrame (candles req) in
    if negb (forallb (fun c => has_col c df)
                     ["timeOpen"; "open"; "high"; "low"; "close"])
    then Raise (HTTPException 400 missing_required_columns)
    else
      df <- snd (ensure_time_and_sort k df "timeOpen" "time") ;;
      predict_on k np_exp model mode df.

(** [ts <= anchor] on one value; a comparison with NaT is false. *)
Definition le_anchor (t anchor : cell) : bool :=
  match t, anchor with
  | Tstamp w tz, Tstamp w' tz' => i8 w tz <=? i8 w' tz'
  | _, _ => false
  end.

(** [df.loc[mask]] *)
Fixpoint loc (rs : list row) (mask : list bool) : list row :=
  match rs, mask with
  | r :: rs', b :: mask' => if b then r :: loc rs' mask' else loc rs' mask'
  | _, _ => []
  end.

(** The anchor cut of [predict_sol_at]: from [ts = ...] to the length
    check on [df_cut]. *)
Definition anchor_cut (df : frame) (anchor : cell) : result frame :=
  ts <- to_datetime_utc (col "timeOpen" df) ;;
  let mask := map (fun t => le_anchor t anchor) ts in
  if negb (existsb (fun b => b) mask)
  then Raise (HTTPException 404 detail_no_candles_before)
  else
    let df_cut := {| columns := columns df; rows := loc (rows df) mask |} in
    if (List.length (rows df_cut) <? 21)%nat
    then Raise (HTTPException 400 detail_insufficient_before)
    else Ok df_cut.

Definition no_fetcher := "No fetcher available.".
Definition fetcher_failed := "Fetcher failed".
Definition invalid_date := "Invalid date.".

(** [GET /predict/sol/at].  [fetch_candles] is the imported fetcher
    ([None] when the import failed) already applied to ["SOLUSD"] and
    [n]; [date] is the query string as the timestamp parser reads it. *)
Definition predict_sol_at (k : sort_kind) (np_exp : pyfloat -> pyfloat)
    (model : model_t) (MODEL_TARGET_MODE : string)
    (fetch_candles : option (result (list Candle)))
    (date : cell) (target_mode : option string)
  : result PredictTokenResponse :=
  match fetch_candles with
  | None => Raise (HTTPException 501 no_fetcher)
  | Some fetched =>
      let mode :=
        lower (match target_mode with
               | Some m => m
               | None => MODEL_TARGET_MODE
               end) in
      match fetched with
      | Raise _ => Raise (HTTPException 502 fetcher_failed)
      | Ok fetched_rows =>
          let df := DataFrame fetched_rows in
          df <- snd (ensure_time_and_sort k df "timeOpen" "time") ;;
          anchor <- match to_utc_cell date with
                    | Ok a => Ok a
                    | Raise _ => Raise (HTTPException 400 invalid_date)
                    end ;;
          df_cut <- anchor_cut df anchor ;;
          r <- predict_on k np_exp model mode df_cut ;;
          Ok {| base := r;
                token := "SOLUSD";
                history_rows_used := List.length (rows df_cut) |}
      end
  end.

(** [GET /predict/sol]: the same without the anchor. *)
Definition predict_sol (k : sort_kind) (np_exp : pyfloat -> pyfloat)
    (model : model_t) (MODEL_TARGET_MODE : string)
    (fetch_candles : option (result (list Candle)))
    (target_mode : option string)
  : result PredictTokenResponse :=
  match fetch_candles with
  | None => Raise (HTTPException 501 no_fetcher)
  | Some fetched =>
      let mode :=
        lower (match target_mode with
               | Some m => m
               | None => MODEL_TARGET_MODE
               end) in
      match fetched with
      | Raise _ => Raise (HTTPException 502 fetcher_failed)
      | Ok fetched_rows =>
          let df := DataFrame fetched_rows in
          df <- snd (ensure_time_and_sort k df "timeOpen" "time") ;;
          if (List.length (rows df) <? 21)%nat
          then Raise (HTTPException 400 detail_insufficient)
          else
            r <- predict_on k np_exp model mode df ;;
            Ok {| base := r;
                  token := "SOLUSD";
                  history_rows_used := List.length (rows df) |}
      end
  end.

(* ------------------------------------------------------------------ *)
(** ** The fetchers (fetch/kraken_ohlc_solusd.py, fetch/sol_fetch.py) *)

(** What the fetchers take from Python and its standard library: the
    type of a JSON value inside an OHLC row, [int()] and [float()] on
    it, and [datetime.fromtimestamp(sec, tz=utc).isoformat()] with
    "+00:00" replaced by "Z".  Each may raise. *)
Record pylib : Type := mkPylib {
  field : Type;
  py_int : field -> result Z;
  py_float : field -> result pyfloat;
  iso_from_epoch : Z -> result string
}.

(** The dict a fetcher builds per row. *)
Record ohlcv : Type := mkOhlcv {
  o_timeOpen : string;
  o_open : pyfloat;
  o_high : pyfloat;
  o_low : pyfloat;
  o_close : pyfloat;
  o_volume : pyfloat
}.

(** A value under a key of the payload's "result": a list of rows, or
    something else (the "last" cursor), of which only truthiness shows. *)
Inductive jvalue (L : pylib) : Type :=
| Rows (rs : list (list (field L)))
| Scalar (truthy : bool).
Arguments Rows {L} rs.
Arguments Scalar {L} truthy.

(** What [requests.get(...)], [raise_for_status()] and [r.json()] give:
    a transport or status failure, a body that is not JSON, a JSON value
    that is not an object, or an object with its "error" entry (truthy
    or not) and its "result" entries in order. *)
Inductive response (L : pylib) : Type :=
| HttpFailure
| InvalidJson
| NotADict
| Data (error : bool) (res : list (string * jvalue L)).
Arguments Data {L} error res.
Arguments HttpFailure {L}.
Arguments InvalidJson {L}.
Arguments NotADict {L}.

Definition upper_ascii (a : ascii) : ascii :=
  let n := nat_of_ascii a in
  if (97 <=? n)%nat && (n <=? 122)%nat then ascii_of_nat (n - 32) else a.

Fixpoint upper (s : string) : string :=
  match s with
  | EmptyString => EmptyString
  | String a s' => String (upper_ascii a) (upper s')
  end.

(** [s.replace("-", "")] *)
Fixpoint remove_dashes (s : string) : string :=
  match s with
  | EmptyString => EmptyString
  | String a s' =>
      if Ascii.eqb a "-"%char then remove_dashes s'
      else String a (remove_dashes s')
  end.

Fixpoint assoc {V} (k : string) (d : list (string * V)) : option V :=
  match d with
  | [] => None
  | (k', v) :: d' => if String.eqb k k' then Some v else assoc k d'
  end.

(** [rows[-n:]] *)
Definition last_n {A} (n : Z) (l : list A) : list A :=
  if 0 <? n then skipn (List.length l - Z.to_nat n) l
  else skipn (Z.to_nat (- n)) l.

(** [list.sort(key=...)] on string keys: stable. *)
Fixpoint insert_by {A} (key : A -> string) (x : A) (l : list A) : list A :=
  match l with
  | [] => [x]
  | y :: l' =>
      if String.leb (key x) (key y) then x :: y :: l'
      else y :: insert_by key x l'
  end.

Fixpoint list_sort {A} (key : A -> string) (l : list A) : list A :=
  match l with
  | [] => []
  | x :: l' => insert_by key x (list_sort key l')
  end.

Definition index {L : pylib} (r : list (field L)) (i : nat)
  : result (field L) :=
  match nth_error r i with
  | Some f => Ok f
  | None => Raise IndexError
  end.

(** The body of the loop both fetchers share: one row to one dict. *)
Definition row_to_dict {L : pylib} (r : list (field L)) : result ohlcv :=
  ts <- (f <- index r 0 ;; py_int L f) ;;
  t <- iso_from_epoch L ts ;;
  o <- (f <- index r 1 ;; py_float L f) ;;
  h <- (f <- index r 2 ;; py_float L f) ;;
  l <- (f <- index r 3 ;; py_float L f) ;;
  c <- (f <- index r 4 ;; py_float L f) ;;
  v <- (f <- index r 6 ;; py_float L f) ;;
  Ok {| o_timeOpen := t; o_open := o; o_high := h; o_low := l;
        o_close := c; o_volume := v |}.

Definition kraken_error := "Kraken error".
Definition unexpected_keys := "Unexpected Kraken payload keys".
Definition no_rows := "No OHLC rows returned from Kraken.".
Definition http_error := "HTTP error contacting Kraken".
Definition invalid_json := "Invalid JSON from Kraken".
Definition unexpected_type := "Unexpected Kraken response type".
Definition unsupported_interval := "Unsupported interval".

(** The key lookup both files share: the first key equal to the pair up
    to case, else the first key other than "last". *)
Definition find_key {V} (pair : string) (res : list (string * V))
  : result string :=
  match find (fun k => String.eqb (lower k) (lower pair)) (map fst res) with
  | Some k => Ok k
  | None =>
      match filter (fun k => negb (String.eqb k "last")) (map fst res) with
      | [] => Raise (RuntimeError unexpected_keys)
      | k :: _ => Ok k
      end
  end.

(** [rows = res.get(key, []); if not rows: raise ...]; slicing a value
    that is not a list raises. *)
Definition rows_of {L : pylib} (key : string) (res : list (string * jvalue L))
  : result (list (list (field L))) :=
  match assoc key res with
  | None | Some (Rows []) | Some (Scalar false) =>
      Raise (RuntimeError no_rows)
  | Some (Scalar true) => Raise TypeError
  | Some (Rows rs) => Ok rs
  end.

(** The network as the fetchers see it: the outcome of the GET for a
    pair and an interval. *)
Definition http_t (L : pylib) : Type := string -> Z -> response L.

(** A module's globals: executing a [def] or an assignment binds the
    name, replacing what an earlier statement bound to it. *)
Fixpoint assign {V} (name : string) (v : V) (ns : list (string * V))
  : list (string * V) :=
  match ns with
  | [] => [(name, v)]
  | (k, w) :: ns' =>
      if String.eqb name k then (k, v) :: ns'
      else (k, w) :: assign name v ns'
  end.

Definition exec_module {V} (stmts : list (string * V)) : list (string * V) :=
  fold_left (fun ns s => assign (fst s) (snd s) ns) stmts [].

Unset Implicit Arguments.

Module Kraken.
Section WithPython.
Variable L : pylib.

Definition _PAIR_ALIASES : list (string * string) :=
  [("SOL", "SOLUSD"); ("SOLUSD", "SOLUSD"); ("SOLUSDT", "SOLUSDT")].

Definition _ALLOWED_INTERVALS : list Z :=
  [1; 5; 15; 30; 60; 240; 1440; 10080].

Definition only_solana :=
  "Only Solana is supported. Use SOL, SOLUSD or SOLUSDT.".

Definition _kraken_pair (token : string) : result string :=
  let t := remove_dashes (upper token) in
  match assoc t _PAIR_ALIASES with
  | None => Raise (ValueError only_solana)
  | Some p => Ok p
  end.

Definition _iso_from_epoch (sec : Z) : result string :=
  iso_from_epoch L sec.

(** The loop of both definitions: a row that raises is skipped. *)
Definition rows_to_dicts (rs : list (list (field L))) : list ohlcv :=
  flat_map (fun r => match row_to_dict r with
                     | Ok d => [d]
                     | Raise _ => []
                     end) rs.

(** From [res = data.get("result", {})] to the end, the same text in
    both definitions. *)
Definition candles_of_result (pair : string) (n : Z)
    (res : list (string * jvalue L)) : result (list ohlcv) :=
  key <- find_key pair res ;;
  rs <- rows_of key res ;;
  Ok (list_sort o_timeOpen (rows_to_dicts (last_n n rs))).

(** The first [def get_recent_candles] of the file (line 25). *)
Definition get_recent_candles_line25 (get : http_t L)
    (token : string) (n : Z) (interval : Z) : result (list ohlcv) :=
  if n <=? 0 then Ok []
  else if negb (existsb (Z.eqb interval) _ALLOWED_INTERVALS)
  then Raise (ValueError unsupported_interval)
  else
    pair <- _kraken_pair token ;;
    match get pair interval with
    | HttpFailure => Raise (RuntimeError http_error)
    | InvalidJson => Raise (RuntimeError invalid_json)
    | NotADict => Raise (RuntimeError unexpected_type)
    | Data error res =>
        if error then Raise (RuntimeError kraken_error)
        else candles_of_result pair n res
    end.

(** The second [def get_recent_candles] of the file (line 92). *)
Definition get_recent_candles_line92 (get : http_t L)
    (token : string) (n : Z) (interval : Z) : result (list ohlcv) :=
  if n <=? 0 then Ok []
  else
    pair <- _kraken_pair token ;;
    match get pair interval with
    | HttpFailure | InvalidJson => Raise (RuntimeError http_error)
    | NotADict => Raise (RuntimeError unexpected_type)
    | Data error res =>
        if error then Raise (RuntimeError kraken_error)
        else candles_of_result pair n res
    end.

(** The values the module binds at top level. *)
Inductive pyobj : Type :=
| Table (d : list (string * string))
| IntSet (s : list Z)
| PairFn (f : string -> result string)
| IsoFn (f : Z -> result string)
| FetchFn (f : http_t L -> string -> Z -> Z -> result (list ohlcv)).

(** The top-level statements of the file, in order. *)
Definition statements : list (string * pyobj) :=
  [ ("_PAIR_ALIASES", Table _PAIR_ALIASES);
    ("_ALLOWED_INTERVALS", IntSet _ALLOWED_INTERVALS);
    ("get_recent_candles", FetchFn get_recent_candles_line25);
    ("_kraken_pair", PairFn _kraken_pair);
    ("_iso_from_epoch", IsoFn _iso_from_epoch);
    ("get_recent_candles", FetchFn get_recent_candles_line92) ].

Definition globals : list (string * pyobj) := exec_module statements.

(** What [from fetch.kraken_ohlc_solusd import get_recent_candles]
    binds, applied; a name that is not a function raises. *)
Definition get_recent_candles (get : http_t L)
    (token : string) (n : Z) (interval : Z) : result (list ohlcv) :=
  match assoc "get_recent_candles" globals with
  | Some (FetchFn f) => f get token n interval
  | _ => Raise TypeError
  end.
End WithPython.
End Kraken.

Module SolFetch.
Section WithPython.
Variable L : pylib.

Definition _ALLOWED : list (string * string) :=
  [("SOL", "SOLUSD"); ("SOLUSD", "SOLUSD"); ("SOLUSDT", "SOLUSDT")].

Definition only_solana :=
  "Only Solana supported. Use SOL, SOLUSD or SOLUSDT.".

Definition _norm_token (token : string) : result string :=
  let t := remove_dashes (upper token) in
  match assoc t _ALLOWED with
  | None => Raise (ValueError only_solana)
  | Some p => Ok p
  end.

Definition _iso (sec : Z) : result string := iso_from_epoch L sec.

Definition get_recent_candles (get : http_t L)
    (token : string) (n : Z) (interval : Z) : result (list ohlcv) :=
  pair <- _norm_token token ;;
  match get pair interval with
  | HttpFailure => Raise RequestException
  | InvalidJson => Raise (ValueError invalid_json)
  | NotADict => Raise AttributeError
  | Data error res =>
      if error then Raise (RuntimeError kraken_error)
      else
        key <- find_key pair res ;;
        rs <- rows_of key res ;;
        out <- mapM row_to_dict (last_n n rs) ;;
        Ok (list_sort o_timeOpen out)
  end.
End WithPython.
End SolFetch.

Set Implicit Arguments.

(* ------------------------------------------------------------------ *)
(** ** Well-formed input *)

Definition is_num (c : cell) : bool :=
  match c with Num _ => true | _ => false end.

(** A time cell that parses, in zone [tz] ([None]: naive). *)
Definition in_zone (tz : option Z) (c : cell) : bool :=
  match c with
  | Text (Some (_, tz')) | Tstamp _ tz' => tz_eqb tz tz'
  | _ => false
  end.

Definition ohlcv_present (r : row) : bool :=
  is_num (r "open") && is_num (r "high") && is_num (r "low")
  && is_num (r "close") && is_num (r "volume").

(** A frame of well-formed candles: the six columns exist, every time
    parses in the one zone [tz], every OHLCV value is a number. *)
Definition well_formed (tz : option Z) (df : frame) : bool :=
  forallb (fun c => has_col c df)
          ["timeOpen"; "open"; "high"; "low"; "close"; "volume"]
  && forallb (fun r => in_zone tz (r "timeOpen") && ohlcv_present r)
             (rows df).

(** The timestamp [to_datetime] makes of a cell that parses. *)
Definition tstamp_of (c : cell) : cell :=
  match parse_cell c with Ok t => t | Raise _ => Missing end.

(** A row as normalization leaves it: time parsed, month attached. *)
Definition annotate (time_col : string) (r : row) : row :=
  let r' := upd r time_col (tstamp_of (r time_col)) in
  upd r' "month" (dt_month (r' time_col)).

(* ------------------------------------------------------------------ *)
(** ** Notions used in the statements *)

Unset Implicit Arguments.

Definition parse_time (r : row) : row :=
  upd r "timeOpen" (tstamp_of (r "timeOpen")).

Definition add_month (r : row) : row :=
  upd r "month" (dt_month (r "timeOpen")).

Definition by_time (r : row) : Z := time_key (r "timeOpen").

Definition normalized_rows (k : sort_kind) (rs : list row) : list row :=
  map add_month (sort_by k by_time (map parse_time rs)).

Definition is_tstamp (c : cell) : bool :=
  match c with Tstamp _ _ => true | _ => false end.

(** Keys in non-decreasing order, checked pair by pair. *)
Fixpoint ascending (l : list Z) : bool :=
  match l with
  | a :: (b :: _) as l' => (a <=? b) && ascending l'
  | _ => true
  end.

(** A normalized series: every time is a timestamp, in ascending order. *)
Definition normalized (df : frame) : bool :=
  forallb (fun r : row => is_tstamp (r "timeOpen")) (rows df)
  && ascending (map by_time (rows df)).

Definition at_or_before (anchor : cell) (r : row) : bool :=
  le_anchor (r "timeOpen") anchor.

(** The column [add_features] leaves under each name of the schema. *)
Definition feature_column (df : frame) (name : string) : list cell :=
  if String.eqb name "close_ema3" then _ema (col "close" df) 3
  else if String.eqb name "low_ema3" then _ema (col "low" df) 3
  else if String.eqb name "open_sma3" then _sma (col "open" df) 3
  else if String.eqb name "open_sma7" then _sma (col "open" df) 7
  else if String.eqb name "volume_sma21" then _sma (col "volume" df) 21
  else if String.eqb name "high_lag1" then shift 1 (col "high" df)
  else if String.eqb name "high_lag2" then shift 2 (col "high" df)
  else if String.eqb name "low_lag1" then shift 1 (col "low" df)
  else if String.eqb name "low_lag2" then shift 2 (col "low" df)
  else if String.eqb name "close_lag3" then shift 3 (col "close" df)
  else col name df.

(** The OHLCV and month columns hold numbers only. *)
Definition numeric (df : frame) : bool :=
  forallb (fun c => forallb is_num (col c df))
          ["open"; "high"; "low"; "close"; "volume"; "month"].

(** A well-formed candle for zone [tz]: its time parses in that zone and
    its volume is present. *)
Definition candle_ok (tz : option Z) (c : Candle) : bool :=
  match timeOpen c with
  | Some (_, tz') => tz_eqb tz tz'
  | None => false
  end
  && match volume c with Some _ => true | None => false end.

(** The stub model of the end-to-end example. *)
Definition stub_model (y : Q) : model_t := fun _ => Ok (Fin y).

Definition valid_last_high (last_high : option pyfloat) : bool :=
  match last_high with
  | Some x => isfinite x
  | None => false
  end.

Definition known_mode (mode : string) : bool :=
  String.eqb mode "level" || String.eqb mode "delta"
  || String.eqb mode "logdiff".

(** Each of the last n rows the payload delivers parses. *)
Definition last_rows_parse (L : pylib) (get : http_t L) (token : string)
    (n interval : Z) : Prop :=
  forall pair res key rs,
    Kraken._kraken_pair token = Ok pair ->
    get pair interval = Data false res ->
    find_key pair res = Ok key ->
    rows_of key res = Ok rs ->
    Forall (fun r => exists d, @row_to_dict L r = Ok d) (last_n n rs).

(* ------------------------------------------------------------------ *)
(** ** Sorting algorithms, a small Python, and example data *)

(** Insertion sort on integer keys.  [before_equal = true] puts an
    element in front of the equal keys already placed, which keeps equal
    keys in input order; [false] puts it behind them, which reverses
    them. *)
Fixpoint insert_key {A} (before_equal : bool) (key : A -> Z) (x : A)
    (l : list A) : list A :=
  match l with
  | [] => [x]
  | y :: l' =>
      if (if before_equal then key x <=? key y else key x <? key y)
      then x :: y :: l'
      else y :: insert_key before_equal key x l'
  end.

Fixpoint insertion_sort {A} (before_equal : bool) (key : A -> Z)
    (l : list A) : list A :=
  match l with
  | [] => []
  | x :: l' => insert_key before_equal key x (insertion_sort before_equal key l')
  end.

(** A stand-in for numpy's exponential at the points the examples use:
    exp 0 = 1. *)
Definition exp_at_zero (x : pyfloat) : pyfloat :=
  match x with
  | Fin q => if Qeq_bool q 0 then Fin 1 else NaN
  | PInf => PInf
  | NInf => Fin 0
  | NaN => NaN
  end.

(** The decimal digits of [z], [width] of them. *)
Fixpoint digits (width : nat) (z : Z) : string :=
  match width with
  | O => ""
  | S w =>
      digits w (z / 10)
      ++ String (ascii_of_nat (48 + Z.to_nat (z mod 10))) ""
  end.

(** A small Python for the examples: a JSON field is a number or
    something that is not one; the ISO string of an epoch is stood in for
    by its ten decimal digits. *)
Definition test_python : pylib :=
  {| field := option Z;
     py_int := fun f => match f with
                        | Some z => Ok z
                        | None => Raise (ValueError "invalid literal")
                        end;
     py_float := fun f => match f with
                          | Some z => Ok (Fin (inject_Z z))
                          | None => Raise (ValueError "could not convert")
                          end;
     iso_from_epoch := fun z => Ok (digits 10 z) |}.

(** An OHLC row [time, open, high, low, close, vwap, volume, count], and
    one whose time is not a number. *)
Definition good_row (t : Z) : list (field test_python) :=
  [Some t; Some 150; Some 151; Some 149; Some 150; Some 150; Some 123;
   Some 1000].

Definition bad_row : list (field test_python) :=
  [None; Some 150; Some 151; Some 149; Some 150; Some 150; Some 123;
   Some 1000].

(** A network answering every request with the given rows under the key
    "SOLUSD" and a "last" cursor. *)
Definition serving (rs : list (list (field test_python)))
  : http_t test_python :=
  fun _ _ => Data false [("SOLUSD", Rows rs); ("last", Scalar true)].

(** The candle of day [i]: high above, low below the open. *)
Definition daily_candle (i : nat) : Candle :=
  let q := inject_Z (Z.of_nat i) in
  mkCandle (Some (86400 * Z.of_nat i, Some 0))
           q (q + 1)%Q (q - 1)%Q q (Some 1000%Q).

(** Candles dated day 1 to day [n]: rising highs, constant volume. *)
Definition daily_candles (n : nat) : list Candle :=
  map daily_candle (seq 1 n).

(** The normalized series of a candle list. *)
Definition normalized_frame (k : sort_kind) (cs : list Candle) : frame :=
  match snd (ensure_time_and_sort k (DataFrame cs) "timeOpen" "time") with
  | Ok df => df
  | Raise _ => {| columns := []; rows := [] |}
  end.

(** Three naive daily candles out of order, and two of one timestamp. *)
Definition three_candles : list Candle :=
  [ mkCandle (Some (172800, None)) 3 3 3 3 (Some 1%Q);
    mkCandle (Some (0, None)) 1 1 1 1 (Some 1%Q);
    mkCandle (Some (86400, None)) 2 2 2 2 None ].

Definition tied_candles : list Candle :=
  [ mkCandle (Some (0, None)) 1 1 1 1 (Some 1%Q);
    mkCandle (Some (0, None)) 2 2 2 2 (Some 1%Q) ].

(** 2025-09-30T00:00:00 written without a zone and with "Z": one
    instant. *)
Definition same_instant_mixed : list Candle :=
  [ mkCandle (Some (1759190400, None)) 1 1 1 1 (Some 1%Q);
    mkCandle (Some (1759190400, Some 0)) 2 2 2 2 (Some 1%Q) ].

(** 2025-01-31T23:00:00-02:00, which is 2025-02-01T01:00:00Z. *)
Definition late_january_west : list Candle :=
  [ mkCandle (Some (1738364400, Some (-7200))) 1 1 1 1 (Some 1%Q) ].

Definition request25 : PredictRequest :=
  {| candles := daily_candles 25; target_mode := Some "delta" |}.

(* ================================================================== *)
(** * Proofs *)

(** ** Calendar *)

Lemma month_of_days_range (d : Z) : 1 <= month_of_days d <= 12.
Proof.
  unfold month_of_days.
  set (z := d + 719468).
  set (era := z / 146097).
  set (doe := z - era * 146097).
  assert (Hdoe : 0 <= doe <= 146096).
  { subst doe era. pose proof (Z.div_mod z 146097 ltac:(lia)).
    pose proof (Z.mod_pos_bound z 146097 ltac:(lia)). lia. }
  clearbody doe. clear z era.
  set (yoe := (doe - doe / 1460 + doe / 36524 - doe / 146096) / 365).
  set (doy := doe - (365 * yoe + yoe / 4 - yoe / 100)).
  assert (Hdoy : 0 <= doy <= 365).
  { subst doy yoe. Z.to_euclidean_division_equations. lia. }
  clearbody doy.
  destruct ((5 * doy + 2) / 153 <? 10) eqn:E.
  - apply Z.ltb_lt in E. Z.to_euclidean_division_equations. lia.
  - apply Z.ltb_ge in E. Z.to_euclidean_division_equations. lia.
Qed.

(** ** Two sorting algorithms within the contract of [sort_kind] *)

Lemma insert_key_perm {A} b (key : A -> Z) x l :
  Permutation (insert_key b key x l) (x :: l).
Proof.
  induction l as [|y l IH]; simpl; [reflexivity|].
  destruct (if b then key x <=? key y else key x <? key y).
  - reflexivity.
  - rewrite IH. apply perm_swap.
Qed.

Lemma insertion_sort_perm {A} b (key : A -> Z) l :
  Permutation (insertion_sort b key l) l.
Proof.
  induction l as [|x l IH]; simpl; [constructor|].
  rewrite insert_key_perm. now constructor.
Qed.

Lemma insert_key_sorted {A} b (key : A -> Z) x l :
  StronglySorted (fun a c => key a <= key c) l ->
  StronglySorted (fun a c => key a <= key c) (insert_key b key x l).
Proof.
  induction 1 as [|y l Hs IH Hy]; simpl.
  - repeat constructor.
  - destruct (if b then key x <=? key y else key x <? key y) eqn:E.
    + assert (Hxy : key x <= key y) by (destruct b; lia).
      constructor; [now constructor|].
      constructor; [exact Hxy|].
      eapply Forall_impl; [|exact Hy]. simpl; intros; lia.
    + assert (Hyx : key y <= key x) by (destruct b; lia).
      constructor; [exact IH|].
      eapply Permutation_Forall;
        [symmetry; apply insert_key_perm|].
      now constructor.
Qed.

Lemma insertion_sort_sorted {A} b (key : A -> Z) l :
  StronglySorted (fun a c => key a <= key c) (insertion_sort b key l).
Proof.
  induction l as [|x l IH]; simpl; [constructor|].
  now apply insert_key_sorted.
Qed.

(** The stable algorithm (what kind="mergesort" would give). *)
Definition stable_kind : sort_kind :=
  {| sort_by := fun A => @insertion_sort A true;
     sort_by_perm := fun A => @insertion_sort_perm A true;
     sort_by_sorted := fun A => @insertion_sort_sorted A true |}.

(** An algorithm that sorts and reverses equal keys. *)
Definition tie_reversing_kind : sort_kind :=
  {| sort_by := fun A => @insertion_sort A false;
     sort_by_perm := fun A => @insertion_sort_perm A false;
     sort_by_sorted := fun A => @insertion_sort_sorted A false |}.

(** ** Frames *)

Lemma zip_upd_length c rs vs :
  List.length (zip_upd c rs vs) = List.length rs.
Proof.
  revert vs; induction rs as [|r rs IH]; intros vs; simpl; [reflexivity|].
  destruct vs; simpl; now rewrite IH.
Qed.

Lemma zip_upd_map c (f : row -> cell) rs :
  zip_upd c rs (map f rs) = map (fun r => upd r c (f r)) rs.
Proof.
  induction rs as [|r rs IH]; simpl; [reflexivity|]. now rewrite IH.
Qed.

Lemma col_zip_upd_other c c' rs vs :
  String.eqb c' c = false ->
  map (fun r : row => r c') (zip_upd c rs vs) = map (fun r : row => r c') rs.
Proof.
  intros E; revert vs; induction rs as [|r rs IH]; intros vs; simpl;
    [reflexivity|].
  destruct vs; simpl; unfold upd at 1; rewrite E, IH; reflexivity.
Qed.

Lemma col_zip_upd_same c rs vs :
  List.length vs = List.length rs ->
  map (fun r : row => r c) (zip_upd c rs vs) = vs.
Proof.
  revert vs; induction rs as [|r rs IH]; intros [|v vs] H; simpl in *;
    try discriminate; [reflexivity|].
  unfold upd at 1. rewrite String.eqb_refl, IH by lia. reflexivity.
Qed.

Lemma col_set_col_other c c' vs df :
  String.eqb c' c = false -> col c' (set_col c vs df) = col c' df.
Proof. intros E. unfold col, set_col; simpl. now apply col_zip_upd_other. Qed.

Lemma col_set_col_same c vs df :
  List.length vs = List.length (rows df) -> col c (set_col c vs df) = vs.
Proof. intros E. unfold col, set_col; simpl. now apply col_zip_upd_same. Qed.

Lemma rows_set_col_length c vs df :
  List.length (rows (set_col c vs df)) = List.length (rows df).
Proof. unfold set_col; simpl. apply zip_upd_length. Qed.

Lemma col_length c df : List.length (col c df) = List.length (rows df).
Proof. unfold col. apply length_map. Qed.

Lemma has_col_set_col c c' vs df :
  has_col c' df = true -> has_col c' (set_col c vs df) = true.
Proof.
  unfold has_col at 1 2; unfold set_col; simpl. intros H.
  destruct (has_col c df); [exact H|].
  rewrite existsb_app, H. reflexivity.
Qed.

(** ** to_datetime on a column of one zone *)

Lemma in_zone_tstamp tz c :
  in_zone tz c = true ->
  parse_cell c = Ok (tstamp_of c) /\ exists w, tstamp_of c = Tstamp w tz.
Proof.
  unfold tstamp_of.
  destruct c as [|q|[[w tz']|]|w tz']; simpl; try discriminate; intros H.
  all: assert (tz' = tz)
         by (destruct tz, tz'; simpl in H; try discriminate;
             [apply Z.eqb_eq in H; now subst | reflexivity]).
  all: subst; split; [reflexivity | now exists w].
Qed.

Lemma mapM_parse_in_zone tz l :
  forallb (in_zone tz) l = true ->
  mapM parse_cell l = Ok (map tstamp_of l).
Proof.
  induction l as [|c l IH]; simpl; [reflexivity|].
  intros H; apply andb_prop in H as [Hc Hl].
  destruct (in_zone_tstamp _ _ Hc) as [-> _]. simpl.
  rewrite IH by assumption. reflexivity.
Qed.

Lemma zones_in_zone tz l :
  forallb (in_zone tz) l = true ->
  zones (map tstamp_of l) = repeat tz (List.length l).
Proof.
  induction l as [|c l IH]; simpl; [reflexivity|].
  intros H; apply andb_prop in H as [Hc Hl].
  destruct (in_zone_tstamp _ _ Hc) as [_ [w ->]]. simpl.
  now rewrite IH.
Qed.

Lemma tz_eqb_refl tz : tz_eqb tz tz = true.
Proof. destruct tz; simpl; [apply Z.eqb_refl | reflexivity]. Qed.

Lemma to_datetime_in_zone tz l :
  forallb (in_zone tz) l = true ->
  to_datetime l = Ok (map tstamp_of l).
Proof.
  intros H. unfold to_datetime. rewrite (mapM_parse_in_zone _ _ H). simpl.
  unfold uniform_tz. rewrite (zones_in_zone _ _ H).
  destruct (List.length l); simpl; [reflexivity|].
  replace (forallb (tz_eqb tz) (repeat tz n)) with true; [reflexivity|].
  symmetry. apply forallb_forall. intros x Hx.
  apply repeat_spec in Hx. subst. apply tz_eqb_refl.
Qed.

Lemma tstamp_of_not_na tz c : in_zone tz c = true -> isna (tstamp_of c) = false.
Proof.
  intros H. destruct (in_zone_tstamp _ _ H) as [_ [w ->]]. reflexivity.
Qed.

(** ** ensure_time_and_sort on a column of one zone *)

Lemma filter_all {A} (p : A -> bool) l :
  forallb p l = true -> filter p l = l.
Proof.
  induction l as [|a l IH]; simpl; [reflexivity|].
  intros H; apply andb_prop in H as [-> Hl]. now rewrite IH.
Qed.

Lemma filter_none {A} (p : A -> bool) l :
  forallb (fun a => negb (p a)) l = true -> filter p l = [].
Proof.
  induction l as [|a l IH]; simpl; [reflexivity|].
  intros H; apply andb_prop in H as [Ha Hl].
  apply negb_true_iff in Ha. now rewrite Ha, IH.
Qed.

Lemma parsed_present tz rs :
  forallb (in_zone tz) (map (fun r : row => r "timeOpen") rs) = true ->
  forallb (fun r : row => negb (isna (r "timeOpen"))) (map parse_time rs)
  = true.
Proof.
  induction rs as [|r rs IH]; simpl; [reflexivity|].
  intros H; apply andb_prop in H as [Hr Hrs].
  rewrite IH by assumption.
  unfold parse_time at 1, upd. simpl.
  now rewrite (tstamp_of_not_na _ _ Hr).
Qed.

Lemma sort_values_present k tz rs :
  forallb (in_zone tz) (map (fun r : row => r "timeOpen") rs) = true ->
  sort_values k "timeOpen" (map parse_time rs)
  = sort_by k by_time (map parse_time rs).
Proof.
  intros H. unfold sort_values, by_time.
  pose proof (parsed_present _ _ H) as P.
  rewrite (filter_all _ _ P).
  rewrite filter_none.
  - apply app_nil_r.
  - exact P.
Qed.

Lemma ensure_time_and_sort_ok k tz df :
  has_col "timeOpen" df = true ->
  forallb (in_zone tz) (col "timeOpen" df) = true ->
  exists out,
    ensure_time_and_sort k df "timeOpen" "time"
    = (set_col "timeOpen" (map tstamp_of (col "timeOpen" df)) df, Ok out)
    /\ rows out = normalized_rows k (rows df)
    /\ columns out
       = (if has_col "month" df then columns df
          else (columns df ++ ["month"])%list).
Proof.
  intros Hc Hz. unfold ensure_time_and_sort. rewrite Hc.
  rewrite (to_datetime_in_zone _ _ Hz).
  eexists; split; [reflexivity|]. split.
  - unfold set_col at 1; simpl. unfold col; simpl.
    rewrite !map_map.
    rewrite (zip_upd_map "timeOpen" (fun r => tstamp_of (r "timeOpen"))).
    change (fun r : row => upd r "timeOpen" (tstamp_of (r "timeOpen")))
      with parse_time.
    rewrite (sort_values_present k _ _ Hz).
    rewrite (zip_upd_map "month" (fun r => dt_month (r "timeOpen"))).
    reflexivity.
  - unfold set_col; simpl. unfold has_col at 1; simpl.
    fold (has_col "timeOpen" df). rewrite Hc. reflexivity.
Qed.

Lemma StronglySorted_map {A B} (R : A -> A -> Prop) (R' : B -> B -> Prop)
    (f : A -> B) l :
  (forall a b, R a b -> R' (f a) (f b)) ->
  StronglySorted R l -> StronglySorted R' (map f l).
Proof.
  intros HR. induction 1 as [|a l Hs IH Ha]; simpl; constructor.
  - exact IH.
  - apply Forall_map. eapply Forall_impl; [|exact Ha]. intros b. apply HR.
Qed.

Lemma has_col_set_col_other c c' vs df :
  String.eqb c' c = false -> has_col c' (set_col c vs df) = has_col c' df.
Proof.
  intros E. unfold has_col at 1; unfold set_col; simpl.
  destruct (has_col c df); [reflexivity|].
  rewrite existsb_app. simpl. rewrite E.
  unfold has_col. now rewrite !orb_false_r.
Qed.

(** The frame the caller handed over, after the call. *)
Lemma caller_frame_cases k df tc fb :
  let caller := fst (ensure_time_and_sort k df tc fb) in
  caller = df
  \/ (exists vs, caller = set_col tc vs df)
  \/ (exists vs ws, caller = set_col tc vs (set_col tc ws df)).
Proof.
  unfold ensure_time_and_sort.
  destruct (has_col tc df).
  - destruct (to_datetime (col tc df)); simpl; eauto.
  - destruct (has_col fb df); simpl; [|now left].
    destruct (to_datetime (col tc (set_col tc (col fb df) df))); simpl; eauto.
Qed.







(** ** The target codec *)



(** C6 (amended).  "level" succeeds whatever the last high, absent
    included; any other mode with the last high absent or not finite
    fails with InversionError ("delta", "logdiff" and unknown modes
    alike, as that check comes before the mode is looked at); a mode
    outside the three encodings fails with UnsupportedModeError when the
    last high is present and finite. *)
Theorem decode_failures (np_exp : pyfloat -> pyfloat) (raw : pyfloat)
    (last_high : option pyfloat) (mode : string) :
  _invert_prediction np_exp raw last_high "level" = Ok raw
  /\ (valid_last_high last_high = false ->
      String.eqb mode "level" = false ->
      _invert_prediction np_exp raw last_high mode = Raise InversionError)
  /\ (valid_last_high last_high = true ->
      known_mode mode = false ->
      _invert_prediction np_exp raw last_high mode
      = Raise UnsupportedModeError).
Proof.
  split; [reflexivity|]. unfold _invert_prediction, known_mode. split.
  - intros V M. rewrite M.
    destruct last_high as [x|]; [|reflexivity].
    simpl in V. rewrite V. reflexivity.
  - intros V M.
    destruct (String.eqb mode "level"); [discriminate|].
    destruct (String.eqb mode "delta"); [discriminate|].
    destruct (String.eqb mode "logdiff"); [discriminate|].
    destruct last_high as [x|]; [|discriminate].
    simpl in V. rewrite V. reflexivity.
Qed.

Lemma decode_failures_witness :
  (valid_last_high None = false
   /\ String.eqb "delta" "level" = false
   /\ _invert_prediction exp_at_zero (Fin 0) None "delta"
      = Raise InversionError)
  /\ (valid_last_high (Some (Fin 100)) = true
      /\ known_mode "ratio" = false
      /\ _invert_prediction exp_at_zero (Fin 0) (Some (Fin 100)) "ratio"
         = Raise UnsupportedModeError).
Proof.
  split.
  - split; [reflexivity|]. split; [reflexivity|].
    apply (decode_failures exp_at_zero (Fin 0) None "delta"); reflexivity.
  - split; [reflexivity|]. split; [reflexivity|].
    apply (decode_failures exp_at_zero (Fin 0) (Some (Fin 100)) "ratio");
      reflexivity.
Defined.

(** C6 as stated fails: an unknown mode with the last high absent fails
    with InversionError, not with UnsupportedModeError. *)
Lemma unknown_mode_without_last_high :
  known_mode "ratio" = false
  /\ _invert_prediction exp_at_zero (Fin 0) None "ratio"
     = Raise InversionError
  /\ _invert_prediction exp_at_zero (Fin 0) None "ratio"
     <> Raise UnsupportedModeError.
Proof. split; [reflexivity|]. split; [reflexivity|]. discriminate. Qed.

(** ** The anchor cut *)

Lemma ascending_head l a :
  ascending (a :: l) = true -> Forall (fun b => a <= b) l.
Proof.
  revert a; induction l as [|b l IH]; intros a H; [constructor|].
  simpl in H. apply andb_prop in H as [Hab Hl].
  apply Z.leb_le in Hab. constructor; [exact Hab|].
  eapply Forall_impl; [|apply (IH b Hl)]. simpl; intros; lia.
Qed.

Lemma ascending_tail l a : ascending (a :: l) = true -> ascending l = true.
Proof.
  destruct l as [|b l]; [reflexivity|]. simpl.
  intros H; now apply andb_prop in H as [_ H].
Qed.

Lemma StronglySorted_ascending l :
  StronglySorted Z.le l -> ascending l = true.
Proof.
  induction 1 as [|a l Hs IH Ha]; [reflexivity|].
  destruct l as [|b l]; [reflexivity|].
  simpl in *. rewrite IH. inversion Ha; subst.
  now replace (a <=? b) with true by (symmetry; apply Z.leb_le; assumption).
Qed.

Lemma to_datetime_utc_tstamps rs :
  forallb (fun r : row => is_tstamp (r "timeOpen")) rs = true ->
  exists ts,
    to_datetime_utc (map (fun r : row => r "timeOpen") rs) = Ok ts
    /\ map (fun t => le_anchor t) ts
       = map (fun (r : row) anchor => at_or_before anchor r) rs.
Proof.
  unfold to_datetime_utc.
  induction rs as [|r rs IH]; simpl; intros H; [now exists []|].
  apply andb_prop in H as [Hr Hrs].
  destruct (IH Hrs) as (ts & -> & E).
  unfold at_or_before.
  destruct (r "timeOpen") as [| |p|w tz] eqn:Er; try discriminate.
  simpl. eexists; split; [reflexivity|]. simpl. rewrite E. f_equal.
  unfold le_anchor. simpl. replace (i8 w tz - 0) with (i8 w tz) by lia.
  reflexivity.
Qed.

Lemma loc_mask (p : row -> bool) rs : loc rs (map p rs) = filter p rs.
Proof.
  induction rs as [|r rs IH]; simpl; [reflexivity|].
  rewrite IH. reflexivity.
Qed.

Lemma at_or_before_monotone anchor (r r' : row) :
  is_tstamp (r "timeOpen") = true ->
  is_tstamp (r' "timeOpen") = true ->
  by_time r <= by_time r' ->
  at_or_before anchor r = false -> at_or_before anchor r' = false.
Proof.
  unfold at_or_before, by_time, le_anchor.
  destruct (r "timeOpen"); try discriminate.
  destruct (r' "timeOpen"); try discriminate.
  simpl. destruct anchor; try reflexivity.
  intros _ _ H E. apply Z.leb_gt in E. apply Z.leb_gt. lia.
Qed.

(** On a normalized series the rows at or before the anchor are a
    prefix, and all rows after it are later than the anchor. *)
Lemma filter_splits_sorted anchor rs :
  forallb (fun r : row => is_tstamp (r "timeOpen")) rs = true ->
  ascending (map by_time rs) = true ->
  exists rest,
    rs = (filter (at_or_before anchor) rs ++ rest)%list
    /\ Forall (fun r => at_or_before anchor r = false) rest.
Proof.
  induction rs as [|r rs IH]; intros Ht Ha; [now exists []|].
  simpl in Ht. apply andb_prop in Ht as [Hr Hrs].
  pose proof (ascending_tail (map by_time rs) (by_time r) Ha) as Ha'.
  simpl. destruct (at_or_before anchor r) eqn:E.
  - destruct (IH Hrs Ha') as (rest & E1 & E2).
    exists rest. split; [|exact E2]. simpl. now rewrite <- E1.
  - assert (Hall : Forall (fun r' => at_or_before anchor r' = false) rs).
    { pose proof (ascending_head (map by_time rs) (by_time r) Ha) as Hh.
      rewrite Forall_map in Hh. rewrite Forall_forall in Hh.
      apply Forall_forall. intros r' Hin.
      apply (at_or_before_monotone anchor r r'); auto.
      rewrite forallb_forall in Hrs. now apply Hrs. }
    replace (filter (at_or_before anchor) rs) with (@nil row).
    + exists (r :: rs). split; [reflexivity|]. now constructor.
    + symmetry. apply filter_none. apply forallb_forall. intros x Hx.
      rewrite Forall_forall in Hall. now rewrite (Hall x Hx).
Qed.

(** C4.  On a normalized series, for any anchor, the cut selects exactly
    the maximal prefix of rows whose timestamp is at or before the
    anchor (every row after the prefix is later than the anchor); it
    fails with NoDataBeforeAnchorError when that prefix is empty, with
    InsufficientHistoryError when it has between 1 and 20 rows, and
    returns it otherwise. *)
Theorem anchor_cut_maximal_prefix (df : frame) (anchor : cell) :
  normalized df = true ->
  exists pre rest,
    rows df = (pre ++ rest)%list
    /\ Forall (fun r => at_or_before anchor r = true) pre
    /\ Forall (fun r => at_or_before anchor r = false) rest
    /\ anchor_cut df anchor
       = match pre with
         | [] => Raise NoDataBeforeAnchorError
         | _ => if (List.length pre <? 21)%nat
                then Raise InsufficientHistoryBeforeAnchor
                else Ok {| columns := columns df; rows := pre |}
         end.
Proof.
  intros N. unfold normalized in N. apply andb_prop in N as [Ht Ha].
  destruct (filter_splits_sorted anchor _ Ht Ha) as (rest & E & Hrest).
  exists (filter (at_or_before anchor) (rows df)), rest.
  split; [exact E|]. split.
  { apply Forall_forall. intros r Hr. now apply filter_In in Hr. }
  split; [exact Hrest|].
  unfold anchor_cut, col.
  destruct (to_datetime_utc_tstamps _ Ht) as (ts & -> & Em). simpl.
  assert (Emask : map (fun t => le_anchor t anchor) ts
                  = map (at_or_before anchor) (rows df)).
  { apply (f_equal (map (fun f : cell -> bool => f anchor))) in Em.
    rewrite !map_map in Em. exact Em. }
  rewrite Emask, loc_mask.
  destruct (filter (at_or_before anchor) (rows df)) as [|r0 pre] eqn:F.
  - replace (existsb (fun b : bool => b)
               (map (at_or_before anchor) (rows df))) with false;
      [reflexivity|].
    symmetry. apply not_true_iff_false. intros Hex.
    apply existsb_exists in Hex as (b & Hin & Hb). subst b.
    apply in_map_iff in Hin as (r & Hr & Hin).
    assert (In r (filter (at_or_before anchor) (rows df)))
      by (apply filter_In; auto).
    rewrite F in H. destruct H.
  - replace (existsb (fun b : bool => b)
               (map (at_or_before anchor) (rows df))) with true;
      [reflexivity|].
    symmetry. apply existsb_exists. exists true. split; [|reflexivity].
    assert (Hin : In r0 (filter (at_or_before anchor) (rows df)))
      by (rewrite F; now left).
    apply filter_In in Hin as [Hin Hp].
    apply in_map_iff. exists r0. auto.
Qed.

Definition days30 : frame := normalized_frame stable_kind (daily_candles 30).

Lemma anchor_cut_maximal_prefix_witness :
  normalized days30 = true
  /\ exists pre rest,
       rows days30 = (pre ++ rest)%list
       /\ Forall (fun r => at_or_before (Tstamp (86400 * 25) (Some 0)) r
                           = true) pre
       /\ Forall (fun r => at_or_before (Tstamp (86400 * 25) (Some 0)) r
                           = false) rest
       /\ anchor_cut days30 (Tstamp (86400 * 25) (Some 0))
          = match pre with
            | [] => Raise NoDataBeforeAnchorError
            | _ => if (List.length pre <? 21)%nat
                   then Raise InsufficientHistoryBeforeAnchor
                   else Ok {| columns := columns days30; rows := pre |}
            end.
Proof.
  split; [vm_compute; reflexivity|].
  apply (anchor_cut_maximal_prefix days30 (Tstamp (86400 * 25) (Some 0))).
  vm_compute; reflexivity.
Defined.

(** Days 1 to 30: the cut at day 25 returns days 1 to 25; at day 15 the
    prefix has 15 rows and the cut fails; before day 1 there is no row. *)
Example anchor_cut_days30 :
  match anchor_cut days30 (Tstamp (86400 * 25) (Some 0)) with
  | Ok cut => col "timeOpen" cut
              = map (fun i => Tstamp (86400 * Z.of_nat i) (Some 0)) (seq 1 25)
  | Raise _ => False
  end
  /\ anchor_cut days30 (Tstamp (86400 * 15) (Some 0))
     = Raise InsufficientHistoryBeforeAnchor
  /\ anchor_cut days30 (Tstamp 0 (Some 0)) = Raise NoDataBeforeAnchorError.
Proof. vm_compute. repeat split. Qed.

(** ** The feature columns *)

Lemma is_num_not_na c : is_num c = true -> isna c = false.
Proof. destruct c; simpl; congruence. Qed.

Lemma forallb_nth {A} (p : A -> bool) l i d :
  forallb p l = true -> (i < List.length l)%nat -> p (nth i l d) = true.
Proof.
  intros H Hi. rewrite forallb_forall in H. apply H. now apply nth_In.
Qed.

Lemma forallb_firstn {A} (p : A -> bool) n l :
  forallb p l = true -> forallb p (firstn n l) = true.
Proof.
  revert l; induction n as [|n IH]; intros [|a l] H; simpl; try reflexivity.
  simpl in H. apply andb_prop in H as [-> H]. now rewrite IH.
Qed.

Lemma forallb_skipn {A} (p : A -> bool) n l :
  forallb p l = true -> forallb p (skipn n l) = true.
Proof.
  revert l; induction n as [|n IH]; intros [|a l] H; simpl; try reflexivity;
    [exact H|].
  simpl in H. apply andb_prop in H as [_ H]. now apply IH.
Qed.

Lemma ewm_from_length alpha st l :
  List.length (ewm_from alpha st l) = List.length l.
Proof.
  revert st; induction l as [|c l IH]; intros st; simpl; [reflexivity|].
  now rewrite IH.
Qed.

Lemma ewm_from_num alpha st l :
  forallb is_num l = true -> forallb is_num (ewm_from alpha st l) = true.
Proof.
  revert st; induction l as [|c l IH]; intros st H; simpl; [reflexivity|].
  simpl in H. apply andb_prop in H as [Hc Hl].
  rewrite IH by exact Hl. rewrite andb_true_r.
  destruct c; try discriminate. destruct st as [[w|] ow]; reflexivity.
Qed.

Lemma _ema_length l span : List.length (_ema l span) = List.length l.
Proof. apply ewm_from_length. Qed.

Lemma _ema_num l span :
  forallb is_num l = true -> forallb is_num (_ema l span) = true.
Proof. apply ewm_from_num. Qed.

Lemma mean_min1_num l :
  forallb is_num l = true -> l <> [] -> is_num (mean_min1 l) = true.
Proof.
  destruct l as [|c l]; [congruence|]. simpl. intros H _.
  apply andb_prop in H as [Hc _]. destruct c; try discriminate.
  reflexivity.
Qed.

Lemma window_at_nonempty w i (l : list cell) :
  (0 < w)%nat -> (i < List.length l)%nat -> window_at w i l <> [].
Proof.
  intros Hw Hi E.
  assert (H : (0 < List.length (window_at w i l))%nat).
  { unfold window_at. rewrite length_skipn, length_firstn. lia. }
  rewrite E in H. simpl in H. lia.
Qed.

Lemma _sma_length l w : List.length (_sma l w) = List.length l.
Proof. unfold _sma. now rewrite length_map, length_seq. Qed.

Lemma _sma_num l w :
  (0 < w)%nat -> forallb is_num l = true -> forallb is_num (_sma l w) = true.
Proof.
  intros Hw H. unfold _sma. apply forallb_forall. intros c Hc.
  apply in_map_iff in Hc as (i & <- & Hi). apply in_seq in Hi.
  apply mean_min1_num.
  - unfold window_at. now apply forallb_skipn, forallb_firstn.
  - apply window_at_nonempty; lia.
Qed.

Lemma shift_length k l : List.length (shift k l) = List.length l.
Proof.
  unfold shift. rewrite length_firstn, length_app. lia.
Qed.

Lemma shift_nth k l i :
  (i < List.length l)%nat ->
  nth i (shift k l) Missing
  = if (i <? k)%nat then Missing else nth (i - k) l Missing.
Proof.
  intros Hi. unfold shift. rewrite nth_firstn.
  replace (i <? List.length l)%nat with true
    by (symmetry; now apply Nat.ltb_lt).
  destruct (i <? k)%nat eqn:E.
  - apply Nat.ltb_lt in E.
    rewrite app_nth1 by (now rewrite repeat_length). apply nth_repeat.
  - apply Nat.ltb_ge in E.
    rewrite app_nth2 by (rewrite repeat_length; lia).
    now rewrite repeat_length.
Qed.

Lemma shift_na k l i :
  forallb is_num l = true -> (i < List.length l)%nat ->
  isna (nth i (shift k l) Missing) = (i <? k)%nat.
Proof.
  intros H Hi. rewrite shift_nth by exact Hi.
  destruct (i <? k)%nat eqn:E; [reflexivity|].
  apply Nat.ltb_ge in E. apply is_num_not_na, forallb_nth; [exact H|lia].
Qed.

Ltac frame_len :=
  repeat first [ rewrite _ema_length | rewrite _sma_length
               | rewrite shift_length | rewrite col_length
               | rewrite rows_set_col_length | rewrite repeat_length ];
  reflexivity.

Ltac frame_cols :=
  repeat first [ rewrite col_set_col_other by reflexivity
               | rewrite col_set_col_same by frame_len ].

Lemma add_features_length df :
  List.length (rows (add_features df)) = List.length (rows df).
Proof.
  unfold add_features. cbv zeta.
  destruct (has_col "volume" _); now rewrite !rows_set_col_length.
Qed.

Lemma add_features_col df name :
  has_col "volume" df = true ->
  In name FINAL_FEATURES ->
  col name (add_features df) = feature_column df name.
Proof.
  intros Hv Hin. unfold add_features. cbv zeta.
  rewrite (has_col_set_col "open_sma7") by
    (repeat apply has_col_set_col; exact Hv).
  simpl in Hin.
  repeat (destruct Hin as [<- | Hin]); try (destruct Hin);
    unfold feature_column; simpl; frame_cols; reflexivity.
Qed.

Lemma nth_row_col df i name :
  nth i (rows df) (fun _ => Missing) name = nth i (col name df) Missing.
Proof.
  unfold col.
  rewrite <- (map_nth (fun r : row => r name) (rows df) (fun _ => Missing)).
  reflexivity.
Qed.

(** Row [i] of the feature frame is complete exactly from the fourth row
    on: the first three lack [close_lag3]. *)
Lemma add_features_complete df i :
  has_col "volume" df = true ->
  numeric df = true ->
  (i < List.length (rows df))%nat ->
  complete FINAL_FEATURES (nth i (rows (add_features df)) (fun _ => Missing))
  = (3 <=? i)%nat.
Proof.
  intros Hv Hn Hi. unfold numeric in Hn. simpl in Hn.
  repeat (apply andb_prop in Hn as [?H Hn]). clear Hn.
  unfold complete, FINAL_FEATURES. cbn [forallb].
  rewrite !nth_row_col.
  rewrite !(add_features_col df) by (exact Hv || (simpl; tauto)).
  unfold feature_column. simpl String.eqb. cbv iota.
  rewrite !shift_na by (assumption || (rewrite col_length; exact Hi)).
  repeat match goal with
  | |- context [isna (nth i ?l Missing)] =>
      rewrite (is_num_not_na (nth i l Missing))
        by (apply forallb_nth;
            [ first [ assumption | apply _ema_num; assumption
                    | apply _sma_num; [lia | assumption] ]
            | first [ rewrite _ema_length | rewrite _sma_length | idtac ];
              rewrite col_length; exact Hi ])
  end.
  clear. destruct i as [|[|[|i]]]; reflexivity.
Qed.

Lemma filter_from_index {A} (p : A -> bool) (d : A) l k :
  (forall i, (i < List.length l)%nat -> p (nth i l d) = (k <=? i)%nat) ->
  filter p l = skipn k l.
Proof.
  revert k; induction l as [|a l IH]; intros k H.
  - now destruct k.
  - pose proof (H 0%nat ltac:(simpl; lia)) as H0. simpl in H0.
    destruct k as [|k]; simpl; rewrite H0; simpl.
    + f_equal. apply (IH 0%nat). intros i Hi.
      exact (H (S i) ltac:(simpl; lia)).
    + apply IH. intros i Hi.
      exact (H (S i) ltac:(simpl; lia)).
Qed.

Lemma forallb_map {A B} (p : B -> bool) (f : A -> B) l :
  forallb p (map f l) = forallb (fun a => p (f a)) l.
Proof.
  induction l as [|a l IH]; simpl; [reflexivity|]. now rewrite IH.
Qed.

Lemma normalized_rows_forall k (Q : row -> Prop) rs :
  (forall r, In r rs -> Q (add_month (parse_time r))) ->
  forall x, In x (normalized_rows k rs) -> Q x.
Proof.
  intros H x Hx. unfold normalized_rows in Hx.
  apply in_map_iff in Hx as (y & <- & Hy).
  apply (Permutation_in _ (sort_by_perm k by_time (map parse_time rs))) in Hy.
  apply in_map_iff in Hy as (r & <- & Hr). now apply H.
Qed.

Lemma well_formed_rows tz df :
  well_formed tz df = true ->
  forall r, In r (rows df) ->
    in_zone tz (r "timeOpen") = true /\ ohlcv_present r = true.
Proof.
  unfold well_formed. intros H r Hr. apply andb_prop in H as [_ H].
  rewrite forallb_forall in H. now apply andb_prop, H.
Qed.

Lemma well_formed_cols tz df c :
  well_formed tz df = true ->
  In c ["timeOpen"; "open"; "high"; "low"; "close"; "volume"] ->
  has_col c df = true.
Proof.
  unfold well_formed. intros H Hc. apply andb_prop in H as [H _].
  rewrite forallb_forall in H. now apply H.
Qed.

Lemma well_formed_time_col tz df :
  well_formed tz df = true ->
  forallb (in_zone tz) (col "timeOpen" df) = true.
Proof.
  intros H. unfold col. rewrite forallb_map. apply forallb_forall.
  intros r Hr. now apply (well_formed_rows _ _ H).
Qed.

Lemma annotated_row tz (r : row) :
  in_zone tz (r "timeOpen") = true -> ohlcv_present r = true ->
  let x := add_month (parse_time r) in
  in_zone tz (x "timeOpen") = true
  /\ ohlcv_present x = true
  /\ is_num (x "month") = true.
Proof.
  intros Hz Ho. destruct (in_zone_tstamp _ _ Hz) as [_ [w Hw]].
  unfold add_month, parse_time, ohlcv_present, upd in *. simpl.
  rewrite Hw. simpl. rewrite tz_eqb_refl. auto.
Qed.

Lemma has_col_month_added c df :
  has_col c df = true ->
  existsb (String.eqb c)
    (if has_col "month" df then columns df
     else (columns df ++ ["month"])%list) = true.
Proof.
  intros H. destruct (has_col "month" df); [exact H|].
  rewrite existsb_app. unfold has_col in H. now rewrite H.
Qed.

(** Normalizing a frame of well-formed candles succeeds and gives a
    frame of well-formed candles, with a numeric month on every row. *)
Lemma well_formed_normalized k tz df :
  well_formed tz df = true ->
  exists out,
    snd (ensure_time_and_sort k df "timeOpen" "time") = Ok out
    /\ rows out = normalized_rows k (rows df)
    /\ List.length (rows out) = List.length (rows df)
    /\ well_formed tz out = true
    /\ numeric out = true.
Proof.
  intros W.
  destruct (ensure_time_and_sort_ok k tz df
              (well_formed_cols _ _ "timeOpen" W ltac:(simpl; tauto))
              (well_formed_time_col _ _ W)) as (out & E & Hr & Hc).
  exists out. rewrite E. split; [reflexivity|]. split; [exact Hr|].
  assert (Hall : forall x, In x (rows out) ->
                   in_zone tz (x "timeOpen") = true
                   /\ ohlcv_present x = true /\ is_num (x "month") = true).
  { rewrite Hr. apply normalized_rows_forall. intros r Hin.
    destruct (well_formed_rows _ _ W r Hin). now apply annotated_row. }
  split.
  { rewrite Hr. unfold normalized_rows.
    rewrite length_map, (Permutation_length (sort_by_perm k _ _)).
    apply length_map. }
  split.
  - unfold well_formed. apply andb_true_intro. split.
    + apply forallb_forall. intros c Hin. unfold has_col. rewrite Hc.
      apply has_col_month_added. now apply (well_formed_cols _ _ c W).
    + apply forallb_forall. intros x Hx.
      destruct (Hall x Hx) as (-> & -> & _). reflexivity.
  - unfold numeric. apply forallb_forall. intros c Hin.
    unfold col. rewrite forallb_map. apply forallb_forall. intros x Hx.
    destruct (Hall x Hx) as (_ & Ho & Hm). unfold ohlcv_present in Ho.
    repeat (apply andb_prop in Ho as [Ho ?H]).
    simpl in Hin.
    repeat (destruct Hin as [<- | Hin]); try assumption. destruct Hin.
Qed.

(** What normalization returns is a normalized series. *)
Lemma normalization_gives_normalized k tz df :
  has_col "timeOpen" df = true ->
  forallb (in_zone tz) (col "timeOpen" df) = true ->
  exists out,
    snd (ensure_time_and_sort k df "timeOpen" "time") = Ok out
    /\ normalized out = true.
Proof.
  intros Hc Hz.
  destruct (ensure_time_and_sort_ok k tz df Hc Hz) as (out & E & Hr & _).
  exists out. rewrite E. split; [reflexivity|].
  unfold normalized. rewrite Hr. apply andb_true_intro. split.
  - apply forallb_forall.
    apply (normalized_rows_forall k
             (fun x => is_tstamp (x "timeOpen") = true)).
    intros r Hin.
    assert (Hr0 : in_zone tz (r "timeOpen") = true).
    { unfold col in Hz. rewrite forallb_map in Hz.
      rewrite forallb_forall in Hz. now apply Hz. }
    destruct (in_zone_tstamp _ _ Hr0) as [_ [w Hw]].
    unfold add_month, parse_time, upd. simpl. now rewrite Hw.
  - apply StronglySorted_ascending. unfold normalized_rows.
    rewrite map_map.
    apply (StronglySorted_map (fun a b : row => by_time a <= by_time b)).
    + intros a b H. exact H.
    + apply (sort_by_sorted k).
Qed.

(** ** _prepare_features *)

Arguments add_features : simpl never.

Lemma prepare_features_ok k tz df :
  well_formed tz df = true ->
  exists out X,
    snd (ensure_time_and_sort k df "timeOpen" "time") = Ok out
    /\ snd (_prepare_features k df) = Ok X
    /\ columns X = FINAL_FEATURES
    /\ List.length (rows X) = (List.length (rows df) - 3)%nat
    /\ Forall (fun r => complete FINAL_FEATURES r = true) (rows X).
Proof.
  intros W.
  destruct (well_formed_normalized k tz df W) as (out & E & _ & Hl & Wo & No).
  pose proof (well_formed_cols tz out "volume" Wo ltac:(simpl; tauto)) as Hv.
  exists out,
    {| columns := FINAL_FEATURES; rows := skipn 3 (rows (add_features out)) |}.
  split; [exact E|]. split; [|split; [reflexivity|split]].
  - unfold _prepare_features, build_features_from_ohlcv.
    replace (forallb (fun c => has_col c df) ["open"; "high"; "low"; "close"])
      with true.
    2:{ symmetry. apply forallb_forall. intros c Hc.
        apply (well_formed_cols tz df c W). simpl in *. tauto. }
    simpl negb. cbv iota.
    destruct (ensure_time_and_sort k df "timeOpen" "time") as [caller r].
    simpl in E. subst r. cbv [bind snd]. unfold select, dropna.
    cbn [rows columns]. do 2 f_equal.
    apply (filter_from_index _ (fun _ => Missing)).
    intros i Hi. rewrite add_features_length in Hi.
    now apply add_features_complete.
  - cbn [rows]. now rewrite length_skipn, add_features_length, Hl.
  - cbn [rows]. apply Forall_forall. intros r Hr.
    apply In_nth with (d := fun _ : string => Missing) in Hr
      as (i & Hi & <-).
    rewrite length_skipn, add_features_length in Hi.
    rewrite nth_skipn, add_features_complete;
      try assumption; try lia.
    now apply Nat.leb_le; lia.
Qed.

(** C1 (amended).  On a frame of n well-formed candles (volume present)
    feature building followed by dropping incomplete rows succeeds and
    leaves n - 3 usable rows, each with all 15 fields present: 17 rows
    for 20 candles and 18 for 21, and no row only when n <= 3.  The
    rejection of fewer than 21 candles is the length guard of the
    endpoint, which raises before any feature is built. *)
Theorem usable_rows_after_feature_building (k : sort_kind) (tz : option Z)
    (df : frame) :
  well_formed tz df = true ->
  (exists X,
      snd (_prepare_features k df) = Ok X
      /\ columns X = FINAL_FEATURES
      /\ List.length (rows X) = (List.length (rows df) - 3)%nat
      /\ Forall (fun r => complete FINAL_FEATURES r = true) (rows X))
  /\ (forall np_exp model default_mode req,
         (List.length (candles req) < 21)%nat ->
         predict k np_exp model default_mode req = Raise TooFewCandles).
Proof.
  intros W. split.
  - destruct (prepare_features_ok k tz df W) as (out & X & _ & H).
    now exists X.
  - intros np_exp model default_mode req Hlen. unfold predict.
    replace (List.length (candles req) <? 21)%nat with true; [reflexivity|].
    symmetry. now apply Nat.ltb_lt.
Qed.

Definition days20 : frame := normalized_frame stable_kind (daily_candles 20).
Definition days21 : frame := normalized_frame stable_kind (daily_candles 21).

Lemma usable_rows_after_feature_building_witness :
  well_formed (Some 0) days21 = true
  /\ (exists X,
        snd (_prepare_features stable_kind days21) = Ok X
        /\ columns X = FINAL_FEATURES
        /\ List.length (rows X) = (List.length (rows days21) - 3)%nat
        /\ Forall (fun r => complete FINAL_FEATURES r = true) (rows X))
  /\ (forall np_exp model default_mode req,
         (List.length (candles req) < 21)%nat ->
         predict stable_kind np_exp model default_mode req
         = Raise TooFewCandles).
Proof.
  split; [vm_compute; reflexivity|].
  apply (usable_rows_after_feature_building stable_kind (Some 0) days21).
  vm_compute; reflexivity.
Defined.

(** C1 as stated fails: 20 well-formed daily candles leave 17 usable
    rows, not none, and 21 leave 18, not one. *)
Lemma twenty_candles_leave_usable_rows :
  List.length (rows days20) = 20%nat
  /\ well_formed (Some 0) days20 = true
  /\ match snd (_prepare_features stable_kind days20) with
     | Ok X => List.length (rows X) = 17%nat
     | Raise _ => False
     end
  /\ List.length (rows days21) = 21%nat
  /\ well_formed (Some 0) days21 = true
  /\ match snd (_prepare_features stable_kind days21) with
     | Ok X => List.length (rows X) = 18%nat
     | Raise _ => False
     end.
Proof. vm_compute. repeat split. Qed.

(** ** POST /predict, end to end *)

Lemma DataFrame_well_formed tz cs :
  cs <> [] -> forallb (candle_ok tz) cs = true ->
  well_formed tz (DataFrame cs) = true.
Proof.
  intros Hne H. unfold well_formed. apply andb_true_intro. split.
  - destruct cs; [congruence|]. reflexivity.
  - unfold DataFrame. cbn [rows]. rewrite forallb_map.
    apply forallb_forall. intros c Hc. rewrite forallb_forall in H.
    specialize (H c Hc). unfold candle_ok in H.
    apply andb_prop in H as [Ht Hv].
    unfold ohlcv_present, dict. simpl.
    destruct (timeOpen c) as [[w tz']|]; [|discriminate].
    destruct (volume c); [|discriminate]. simpl. now rewrite Ht.
Qed.

Lemma last_In {A} (l : list A) d : l <> [] -> In (last l d) l.
Proof.
  induction l as [|a l IH]; [congruence|]. intros _.
  destruct l as [|b l]; [now left|].
  right. apply IH. discriminate.
Qed.

Lemma nonempty_of_length {A} (l : list A) n :
  (S n <= List.length l)%nat -> l <> [].
Proof. destruct l; simpl; [lia | discriminate]. Qed.

Lemma to_feature_dict_complete X r :
  columns X = FINAL_FEATURES ->
  complete FINAL_FEATURES r = true ->
  map fst (to_feature_dict X r) = FINAL_FEATURES
  /\ Forall (fun kv => exists x, snd kv = Some x) (to_feature_dict X r).
Proof.
  intros Hc Hr. unfold to_feature_dict. rewrite Hc. split.
  - rewrite map_map. simpl. reflexivity.
  - apply Forall_map. apply Forall_forall. intros name Hin.
    unfold complete in Hr. rewrite forallb_forall in Hr.
    specialize (Hr name Hin). apply negb_true_iff in Hr.
    cbn [snd]. rewrite Hr. eauto.
Qed.

Lemma predict_on_delta k np_exp tz df y :
  well_formed tz df = true ->
  (4 <= List.length (rows df))%nat ->
  exists lh resp,
    last_row df "high" = Num lh
    /\ predict_on k np_exp (stub_model y) "delta" df = Ok resp
    /\ predicted_high_next_day resp = Fin (lh + y)
    /\ last_known_high resp = Some (Fin lh)
    /\ response_target_mode resp = "delta"
    /\ features_used resp = FINAL_FEATURES
    /\ map fst (feature_vector_tail resp) = FINAL_FEATURES
    /\ Forall (fun kv => exists x, snd kv = Some x) (feature_vector_tail resp).
Proof.
  intros W Hn.
  assert (Hh : exists lh, last_row df "high" = Num lh).
  { destruct (well_formed_rows tz df W (last_row df)) as [_ Ho].
    - apply last_In. apply (nonempty_of_length _ 3). exact Hn.
    - unfold ohlcv_present in Ho.
      repeat (apply andb_prop in Ho as [Ho ?H]).
      destruct (last_row df "high"); try discriminate. eauto. }
  destruct Hh as [lh Hh]. exists lh.
  destruct (prepare_features_ok k tz df W)
    as (out & X & _ & E & Hc & Hl & Hall).
  assert (HX : rows X <> []) by (apply (nonempty_of_length _ 0); lia).
  assert (Hlast : complete FINAL_FEATURES (last_row X) = true).
  { rewrite Forall_forall in Hall. apply Hall. now apply last_In. }
  destruct (to_feature_dict_complete X (last_row X) Hc Hlast) as [Hk Hv].
  unfold predict_on. rewrite E. cbn [bind]. unfold empty.
  destruct (rows X) eqn:ER; [congruence|]. cbv iota.
  unfold model_predict, stub_model. cbn [bind].
  rewrite Hh. cbn [float_of_cell]. unfold _invert_prediction.
  simpl String.eqb. cbv iota. cbn [isfinite negb bind fadd].
  eexists. split; [reflexivity|]. split; [reflexivity|].
  cbn [predicted_high_next_day last_known_high response_target_mode
       features_used feature_vector_tail].
  repeat split; assumption.
Qed.



(** The example run: day 25 has high 26, the prediction is 26.5. *)
Example predict_request25 :
  match predict stable_kind exp_at_zero (stub_model (1 # 2)) "level"
                request25 with
  | Ok resp =>
      last_known_high resp = Some (Fin (26 # 1))
      /\ predicted_high_next_day resp = Fin (53 # 2)
      /\ map fst (feature_vector_tail resp) = FINAL_FEATURES
  | Raise _ => False
  end.
Proof. vm_compute. repeat split. Qed.

(** ** The fetchers *)

Lemma kraken_exported (L : pylib) get token n interval :
  Kraken.get_recent_candles L get token n interval
  = Kraken.get_recent_candles_line92 L get token n interval.
Proof. reflexivity. Qed.

Lemma candles_of_result_not_interval (L : pylib) pair n res :
  Kraken.candles_of_result L pair n res
  <> Raise (ValueError unsupported_interval).
Proof.
  unfold Kraken.candles_of_result, find_key, rows_of.
  destruct (find _ _); simpl.
  - destruct (assoc s res) as [[[|r rs]|[|]]|]; simpl; discriminate.
  - destruct (filter _ _); simpl; [discriminate|].
    destruct (assoc s res) as [[[|r rs]|[|]]|]; simpl; discriminate.
Qed.

(** C9.  The name [get_recent_candles] of fetch/kraken_ohlc_solusd.py is
    bound to the second definition, which has no interval check: for
    every network, token, count and interval the exported function never
    raises the "Unsupported interval" ValueError, while the shadowed
    first definition raises it for every positive count and every
    interval outside Kraken's set (7, say). *)
Theorem interval_check_is_shadowed (L : pylib) (get : http_t L)
    (token : string) (n interval : Z) :
  assoc "get_recent_candles" (Kraken.globals L)
  = Some (Kraken.FetchFn L (Kraken.get_recent_candles_line92 L))
  /\ Kraken.get_recent_candles L get token n interval
     <> Raise (ValueError unsupported_interval)
  /\ (0 < n ->
      existsb (Z.eqb interval) Kraken._ALLOWED_INTERVALS = false ->
      Kraken.get_recent_candles_line25 L get token n interval
      = Raise (ValueError unsupported_interval)).
Proof.
  split; [reflexivity|]. split.
  - rewrite kraken_exported. unfold Kraken.get_recent_candles_line92.
    destruct (n <=? 0); [discriminate|].
    unfold Kraken._kraken_pair.
    destruct (assoc _ _) as [pair|]; simpl; [|discriminate].
    destruct (get pair interval) as [| | |[|] res]; try discriminate.
    apply candles_of_result_not_interval.
  - intros Hn Hi. unfold Kraken.get_recent_candles_line25.
    replace (n <=? 0) with false by (symmetry; apply Z.leb_gt; lia).
    now rewrite Hi.
Qed.

Lemma interval_check_is_shadowed_witness :
  0 < 5
  /\ existsb (Z.eqb 7) Kraken._ALLOWED_INTERVALS = false
  /\ Kraken.get_recent_candles_line25 test_python
       (serving [good_row 1710000000]) "SOLUSD" 5 7
     = Raise (ValueError unsupported_interval)
  /\ Kraken.get_recent_candles test_python
       (serving [good_row 1710000000]) "SOLUSD" 5 7
     <> Raise (ValueError unsupported_interval).
Proof.
  split; [lia|]. split; [reflexivity|].
  destruct (interval_check_is_shadowed test_python
              (serving [good_row 1710000000]) "SOLUSD" 5 7)
    as (_ & H2 & H3).
  split; [apply H3; [lia | reflexivity] | exact H2].
Defined.

(** Interval 7 through the exported name: the request goes out and the
    candle comes back. *)
Example exported_fetcher_accepts_interval_7 :
  Kraken.get_recent_candles test_python
    (serving [good_row 1710000000]) "SOLUSD" 5 7
  = Ok [ {| o_timeOpen := "1710000000";
            o_open := Fin (inject_Z 150); o_high := Fin (inject_Z 151);
            o_low := Fin (inject_Z 149); o_close := Fin (inject_Z 150);
            o_volume := Fin (inject_Z 123) |} ].
Proof. reflexivity. Qed.

Lemma mapM_rows_to_dicts (L : pylib) rs ds :
  mapM (@row_to_dict L) rs = Ok ds -> Kraken.rows_to_dicts L rs = ds.
Proof.
  revert ds; induction rs as [|r rs IH]; simpl; intros ds H.
  - now inversion H.
  - destruct (row_to_dict r) as [d|e]; simpl in H; [|discriminate].
    destruct (mapM _ rs) as [ds'|e]; simpl in H; [|discriminate].
    inversion H; subst. now rewrite (IH ds').
Qed.

Lemma mapM_all_parse (L : pylib) rs :
  Forall (fun r => exists d, @row_to_dict L r = Ok d) rs ->
  exists ds, mapM (@row_to_dict L) rs = Ok ds.
Proof.
  induction 1 as [|r rs [d Hd] _ [ds IH]]; simpl; [now exists []|].
  rewrite Hd, IH. simpl. eauto.
Qed.

Lemma insert_by_sorted {A} (key : A -> string) x l :
  Sorted (fun a b => String.leb (key a) (key b) = true) l ->
  Sorted (fun a b => String.leb (key a) (key b) = true) (insert_by key x l).
Proof.
  induction 1 as [|y l Hs IH Hy]; simpl; [repeat constructor|].
  destruct (String.leb (key x) (key y)) eqn:E.
  - repeat constructor; assumption.
  - constructor; [exact IH|].
    assert (Hyx : String.leb (key y) (key x) = true)
      by (destruct (String.leb_total (key x) (key y)); congruence).
    destruct l as [|z l]; simpl; [now constructor|].
    destruct (String.leb (key x) (key z)); constructor; try assumption.
    now inversion Hy.
Qed.

Lemma list_sort_sorted {A} (key : A -> string) l :
  Sorted (fun a b => String.leb (key a) (key b) = true) (list_sort key l).
Proof.
  induction l as [|x l IH]; simpl; [constructor|].
  now apply insert_by_sorted.
Qed.

Lemma insert_by_perm {A} (key : A -> string) x l :
  Permutation (insert_by key x l) (x :: l).
Proof.
  induction l as [|y l IH]; simpl; [reflexivity|].
  destruct (String.leb (key x) (key y)); [reflexivity|].
  rewrite IH. apply perm_swap.
Qed.

Lemma list_sort_perm {A} (key : A -> string) l :
  Permutation (list_sort key l) l.
Proof.
  induction l as [|x l IH]; simpl; [constructor|].
  rewrite insert_by_perm. now constructor.
Qed.

(** Both fetchers on a payload that delivers a row list. *)
Lemma fetchers_on_rows (L : pylib) get token n interval pair res key rs :
  0 < n ->
  Kraken._kraken_pair token = Ok pair ->
  get pair interval = Data false res ->
  find_key pair res = Ok key ->
  rows_of key res = Ok rs ->
  Kraken.get_recent_candles L get token n interval
  = Ok (list_sort o_timeOpen (Kraken.rows_to_dicts L (last_n n rs)))
  /\ SolFetch.get_recent_candles L get token n interval
     = (out <- mapM row_to_dict (last_n n rs) ;;
        Ok (list_sort o_timeOpen out)).
Proof.
  intros Hn Hp Hg Hk Hr. rewrite kraken_exported.
  unfold Kraken.get_recent_candles_line92, SolFetch.get_recent_candles.
  replace (n <=? 0) with false by (symmetry; apply Z.leb_gt; lia).
  assert (Hp' : SolFetch._norm_token token = Ok pair).
  { unfold Kraken._kraken_pair in Hp. unfold SolFetch._norm_token.
    change SolFetch._ALLOWED with Kraken._PAIR_ALIASES.
    destruct (assoc _ Kraken._PAIR_ALIASES); [exact Hp | discriminate]. }
  rewrite Hp, Hp'. cbn [bind]. rewrite Hg.
  unfold Kraken.candles_of_result. rewrite Hk. cbn [bind]. rewrite Hr.
  cbn [bind]. split; reflexivity.
Qed.

(** A malformed row among the last n: the Kraken module's fetcher skips
    it and returns the others, sol_fetch raises. *)
Lemma fetchers_diverge_on_malformed_row (L : pylib) get token n interval
    pair res key rs e :
  0 < n ->
  Kraken._kraken_pair token = Ok pair ->
  get pair interval = Data false res ->
  find_key pair res = Ok key ->
  rows_of key res = Ok rs ->
  mapM (@row_to_dict L) (last_n n rs) = Raise e ->
  Kraken.get_recent_candles L get token n interval
  = Ok (list_sort o_timeOpen (Kraken.rows_to_dicts L (last_n n rs)))
  /\ SolFetch.get_recent_candles L get token n interval = Raise e.
Proof.
  intros Hn Hp Hg Hk Hr Hm.
  destruct (fetchers_on_rows L get token n interval pair res key rs
              Hn Hp Hg Hk Hr) as [-> ->].
  rewrite Hm. split; reflexivity.
Qed.

(** C10 (amended).  For a count n >= 1 and every network answer in which
    each of the last n OHLC rows parses, the exported fetcher of
    fetch/kraken_ohlc_solusd.py returns a list exactly when the fetcher
    of fetch/sol_fetch.py returns it; that list is the dicts of the last
    n rows, rearranged into ascending order of timeOpen. *)
Theorem fetchers_agree (L : pylib) (get : http_t L) (token : string)
    (n interval : Z) :
  0 < n ->
  last_rows_parse L get token n interval ->
  (forall l,
      Kraken.get_recent_candles L get token n interval = Ok l
      <-> SolFetch.get_recent_candles L get token n interval = Ok l)
  /\ (forall l,
         Kraken.get_recent_candles L get token n interval = Ok l ->
         exists pair res key rs ds,
           get pair interval = Data false res
           /\ find_key pair res = Ok key
           /\ rows_of key res = Ok rs
           /\ mapM row_to_dict (last_n n rs) = Ok ds
           /\ l = list_sort o_timeOpen ds
           /\ Permutation l ds
           /\ Sorted (fun a b => String.leb (o_timeOpen a) (o_timeOpen b)
                                 = true) l).
Proof.
  intros Hn Hparse.
  destruct (Kraken._kraken_pair token) as [pair|e] eqn:Hp.
  2:{ assert (HK : forall l, Kraken.get_recent_candles L get token n interval
                             <> Ok l).
      { intros l. rewrite kraken_exported.
        unfold Kraken.get_recent_candles_line92.
        replace (n <=? 0) with false by (symmetry; apply Z.leb_gt; lia).
        rewrite Hp. discriminate. }
      assert (HS : forall l, SolFetch.get_recent_candles L get token n
                               interval <> Ok l).
      { intros l. unfold SolFetch.get_recent_candles, SolFetch._norm_token.
        unfold Kraken._kraken_pair in Hp.
        change SolFetch._ALLOWED with Kraken._PAIR_ALIASES.
        destruct (assoc _ Kraken._PAIR_ALIASES); discriminate. }
      split; intros l; [split; intros H|intros H];
        solve [destruct (HK l H) | destruct (HS l H)]. }
  assert (Hp' : SolFetch._norm_token token = Ok pair).
  { unfold Kraken._kraken_pair in Hp. unfold SolFetch._norm_token.
    change SolFetch._ALLOWED with Kraken._PAIR_ALIASES.
    destruct (assoc _ Kraken._PAIR_ALIASES); [exact Hp | discriminate]. }
  destruct (get pair interval) as [| | |err res] eqn:Hg;
    [| | |destruct err;
          [|destruct (find_key pair res) as [key|e] eqn:Hk;
            [destruct (rows_of key res) as [rs|e] eqn:Hr|]]].
  5:{ (* the payload delivers rows *)
      destruct (fetchers_on_rows L get token n interval pair res key rs
                  Hn Hp Hg Hk Hr) as [EK ES].
      destruct (mapM_all_parse L _ (Hparse pair res key rs Hp Hg Hk Hr))
        as [ds Hds].
      rewrite EK, ES, Hds, (mapM_rows_to_dicts L _ _ Hds). cbn [bind].
      split; [intros l; reflexivity|].
      intros l Hl. inversion Hl; subst l.
      exists pair, res, key, rs, ds. repeat (split; [assumption|]).
      split; [reflexivity|].
      split; [apply list_sort_perm | apply list_sort_sorted]. }
  all: assert (HK : forall l, Kraken.get_recent_candles L get token n interval
                              <> Ok l)
         by (intros l; rewrite kraken_exported;
             unfold Kraken.get_recent_candles_line92,
               Kraken.candles_of_result;
             replace (n <=? 0) with false
               by (symmetry; apply Z.leb_gt; lia);
             rewrite Hp; cbn [bind]; rewrite Hg;
             try (rewrite Hk; cbn [bind]); try (rewrite Hr; cbn [bind]);
             discriminate).
  all: assert (HS : forall l, SolFetch.get_recent_candles L get token n
                                interval <> Ok l)
         by (intros l; unfold SolFetch.get_recent_candles;
             rewrite Hp'; cbn [bind]; rewrite Hg;
             try (rewrite Hk; cbn [bind]); try (rewrite Hr; cbn [bind]);
             discriminate).
  all: split; intros l; [split; intros H|intros H];
         solve [destruct (HK l H) | destruct (HS l H)].
Qed.

Lemma fetchers_agree_witness :
  0 < 2
  /\ last_rows_parse test_python
       (serving [good_row 1710000000; good_row 1710172800;
                 good_row 1710086400]) "sol-usd" 2 1440
  /\ (forall l,
         Kraken.get_recent_candles test_python
           (serving [good_row 1710000000; good_row 1710172800;
                     good_row 1710086400]) "sol-usd" 2 1440 = Ok l
         <-> SolFetch.get_recent_candles test_python
               (serving [good_row 1710000000; good_row 1710172800;
                         good_row 1710086400]) "sol-usd" 2 1440 = Ok l).
Proof.
  assert (H : last_rows_parse test_python
                (serving [good_row 1710000000; good_row 1710172800;
                          good_row 1710086400]) "sol-usd" 2 1440).
  { intros pair res key rs Hp Hg Hk Hr.
    vm_compute in Hp. inversion Hp; subst pair.
    unfold serving in Hg. inversion Hg; subst res.
    vm_compute in Hk. inversion Hk; subst key.
    vm_compute in Hr. inversion Hr; subst rs.
    repeat constructor; eexists; reflexivity. }
  split; [lia|]. split; [exact H|].
  apply (fetchers_agree test_python
           (serving [good_row 1710000000; good_row 1710172800;
                     good_row 1710086400]) "sol-usd" 2 1440);
    [lia | exact H].
Defined.

(** The run of the witness: the last two rows, in ascending time. *)
Example fetchers_agree_run :
  Kraken.get_recent_candles test_python
    (serving [good_row 1710000000; good_row 1710172800;
              good_row 1710086400]) "sol-usd" 2 1440
  = SolFetch.get_recent_candles test_python
      (serving [good_row 1710000000; good_row 1710172800;
                good_row 1710086400]) "sol-usd" 2 1440
  /\ match Kraken.get_recent_candles test_python
             (serving [good_row 1710000000; good_row 1710172800;
                       good_row 1710086400]) "sol-usd" 2 1440 with
     | Ok l => map o_timeOpen l = ["1710086400"; "1710172800"]
     | Raise _ => False
     end.
Proof. split; reflexivity. Qed.

(** A malformed row among the last two: skipped by the one, raised by
    the other. *)
Example fetchers_malformed_row_run :
  match Kraken.get_recent_candles test_python
          (serving [good_row 1710000000; bad_row]) "SOLUSD" 2 1440 with
  | Ok l => map o_timeOpen l = ["1710000000"]
  | Raise _ => False
  end
  /\ SolFetch.get_recent_candles test_python
       (serving [good_row 1710000000; bad_row]) "SOLUSD" 2 1440
     = Raise (ValueError "invalid literal").
Proof. split; reflexivity. Qed.

(** C10 as stated fails at n = 0: the one row of the payload parses, the
    Kraken module's fetcher returns the empty list without a request,
    sol_fetch slices [rows[-0:]], which is every row, and returns it. *)
Lemma fetchers_differ_at_zero :
  last_rows_parse test_python (serving [good_row 1710000000]) "SOLUSD" 0 1440
  /\ Kraken.get_recent_candles test_python
       (serving [good_row 1710000000]) "SOLUSD" 0 1440 = Ok []
  /\ exists d,
       SolFetch.get_recent_candles test_python
         (serving [good_row 1710000000]) "SOLUSD" 0 1440 = Ok [d].
Proof.
  split.
  - intros pair res key rs Hp Hg Hk Hr.
    vm_compute in Hp. inversion Hp; subst pair.
    unfold serving in Hg. inversion Hg; subst res.
    vm_compute in Hk. inversion Hk; subst key.
    vm_compute in Hr. inversion Hr; subst rs.
    repeat constructor; eexists; reflexivity.
  - split; [reflexivity|]. eexists. reflexivity.
Qed.

(** ** Time zones in normalization *)

(** C3 at its failing inputs.  [ensure_time_and_sort] parses without
    [utc=True]: a column mixing a naive and a "Z" timestamp of one
    instant is rejected, where the UTC parse used for the anchor gives the
    two the same canonical value; and an aware timestamp keeps its own
    offset, so its month is that of the local wall clock (January) and
    not that of the instant in UTC (February). *)
Theorem normalization_does_not_force_utc :
  snd (ensure_time_and_sort stable_kind (DataFrame same_instant_mixed)
                            "timeOpen" "time")
  = Raise (ValueError "Mixed timezones detected")
  /\ to_datetime_utc (col "timeOpen" (DataFrame same_instant_mixed))
     = Ok [Tstamp 1759190400 (Some 0); Tstamp 1759190400 (Some 0)]
  /\ (exists out,
        snd (ensure_time_and_sort stable_kind (DataFrame late_january_west)
                                  "timeOpen" "time") = Ok out
        /\ col "timeOpen" out = [Tstamp 1738364400 (Some (-7200))]
        /\ col "month" out = [Num (inject_Z 1)])
  /\ (exists utc,
        to_datetime_utc (col "timeOpen" (DataFrame late_january_west))
        = Ok utc
        /\ utc = [Tstamp 1738371600 (Some 0)]
        /\ map dt_month utc = [Num (inject_Z 2)]).
Proof.
  split; [reflexivity|]. split; [reflexivity|]. split.
  - eexists. split; [reflexivity|]. split; reflexivity.
  - eexists. split; [reflexivity|]. split; reflexivity.
Qed.

(* ================================================================== *)
(** * Further properties of the code *)

(** ** Token normalization (_kraken_pair, _norm_token) *)

Lemma upper_lower_ascii a : upper_ascii (lower_ascii a) = upper_ascii a.
Proof. destruct a as [[] [] [] [] [] [] [] []]; reflexivity. Qed.

Lemma upper_upper_ascii a : upper_ascii (upper_ascii a) = upper_ascii a.
Proof. destruct a as [[] [] [] [] [] [] [] []]; reflexivity. Qed.

Lemma upper_lower s : upper (lower s) = upper s.
Proof.
  induction s as [|a s IH]; simpl; [reflexivity|].
  now rewrite upper_lower_ascii, IH.
Qed.

Lemma upper_upper s : upper (upper s) = upper s.
Proof.
  induction s as [|a s IH]; simpl; [reflexivity|].
  now rewrite upper_upper_ascii, IH.
Qed.

(** The pair of an accepted token is one of the two Solana pairs, and is
    itself an accepted token that maps to itself. *)
Theorem kraken_pair_is_solana_and_fixed (token pair : string) :
  Kraken._kraken_pair token = Ok pair ->
  (pair = "SOLUSD" \/ pair = "SOLUSDT")
  /\ Kraken._kraken_pair pair = Ok pair.
Proof.
  unfold Kraken._kraken_pair. set (t := remove_dashes (upper token)).
  unfold Kraken._PAIR_ALIASES. cbn [assoc].
  destruct (String.eqb t "SOL");
    [intros H; inversion H; subst; split; [now left | reflexivity]|].
  destruct (String.eqb t "SOLUSD");
    [intros H; inversion H; subst; split; [now left | reflexivity]|].
  destruct (String.eqb t "SOLUSDT");
    [intros H; inversion H; subst; split; [now right | reflexivity]|].
  discriminate.
Qed.

Lemma kraken_pair_is_solana_and_fixed_witness :
  Kraken._kraken_pair "sol-usd" = Ok "SOLUSD"
  /\ ("SOLUSD" = "SOLUSD" \/ "SOLUSD" = "SOLUSDT")
  /\ Kraken._kraken_pair "SOLUSD" = Ok "SOLUSD".
Proof.
  split; [reflexivity|].
  apply (kraken_pair_is_solana_and_fixed "sol-usd" "SOLUSD"). reflexivity.
Defined.

(** The token is read without regard to letter case, and a leading dash
    is ignored like any other. *)
Theorem kraken_pair_ignores_case_and_dashes (token : string) :
  Kraken._kraken_pair (lower token) = Kraken._kraken_pair token
  /\ Kraken._kraken_pair (upper token) = Kraken._kraken_pair token
  /\ Kraken._kraken_pair (String "-"%char token) = Kraken._kraken_pair token.
Proof.
  unfold Kraken._kraken_pair.
  rewrite upper_lower, upper_upper. repeat split.
Qed.

(** The two modules accept the same tokens and give them the same
    pair; what they reject, both reject with a ValueError. *)
Theorem token_functions_agree (token : string) :
  (forall pair,
      Kraken._kraken_pair token = Ok pair
      <-> SolFetch._norm_token token = Ok pair)
  /\ (Kraken._kraken_pair token = Raise (ValueError Kraken.only_solana)
      <-> SolFetch._norm_token token = Raise (ValueError SolFetch.only_solana)).
Proof.
  unfold Kraken._kraken_pair, SolFetch._norm_token.
  change SolFetch._ALLOWED with Kraken._PAIR_ALIASES.
  destruct (assoc _ Kraken._PAIR_ALIASES) as [p|].
  - split; [intros pair; reflexivity|]. split; discriminate.
  - split; [intros pair; split; discriminate|]. split; reflexivity.
Qed.

(** ** The fetchers on a payload that delivers rows *)

Lemma last_n_length {A} (n : Z) (l : list A) :
  0 < n -> List.length (last_n n l) = Nat.min (Z.to_nat n) (List.length l).
Proof.
  intros Hn. unfold last_n.
  replace (0 <? n) with true by (symmetry; apply Z.ltb_lt; lia).
  rewrite length_skipn. lia.
Qed.

Lemma In_skipn {A} (x : A) n l : In x (skipn n l) -> In x l.
Proof.
  revert l; induction n as [|n IH]; intros [|a l] H; simpl in *; auto.
Qed.

Lemma last_n_In {A} (n : Z) (l : list A) x : In x (last_n n l) -> In x l.
Proof. unfold last_n. destruct (0 <? n); apply In_skipn. Qed.

Lemma rows_to_dicts_length (L : pylib) rs :
  (List.length (Kraken.rows_to_dicts L rs) <= List.length rs)%nat.
Proof.
  induction rs as [|r rs IH]; simpl; [lia|].
  rewrite length_app. destruct (row_to_dict r); simpl; lia.
Qed.

Lemma rows_to_dicts_In (L : pylib) rs d :
  In d (Kraken.rows_to_dicts L rs) ->
  exists r, In r rs /\ row_to_dict r = Ok d.
Proof.
  induction rs as [|r rs IH]; simpl; [tauto|].
  intros H. apply in_app_or in H as [H|H].
  - destruct (row_to_dict r) as [d'|e] eqn:E; simpl in H; [|tauto].
    destruct H as [<-|[]]. eauto.
  - destruct (IH H) as (r' & Hin & E). eauto.
Qed.

Lemma mapM_length {A B} (f : A -> result B) l ds :
  mapM f l = Ok ds -> List.length ds = List.length l.
Proof.
  revert ds; induction l as [|a l IH]; simpl; intros ds H.
  - now inversion H.
  - destruct (f a); simpl in H; [|discriminate].
    destruct (mapM f l) as [ds'|]; simpl in H; [|discriminate].
    inversion H; subst. simpl. now rewrite (IH ds').
Qed.

(** With a count of at least 1, a supported token and a payload that
    delivers a non-empty row list, the exported Kraken fetcher never
    raises: it returns at most n candles, in ascending order of timeOpen,
    each the dict of one of the payload's rows. *)
Theorem kraken_fetcher_returns_on_rows (L : pylib) (get : http_t L)
    (token : string) (n interval : Z) (pair : string)
    (res : list (string * jvalue L)) (key : string)
    (rs : list (list (field L))) :
  0 < n ->
  Kraken._kraken_pair token = Ok pair ->
  get pair interval = Data false res ->
  find_key pair res = Ok key ->
  rows_of key res = Ok rs ->
  exists l,
    Kraken.get_recent_candles L get token n interval = Ok l
    /\ (List.length l <= Z.to_nat n)%nat
    /\ Sorted (fun a b => String.leb (o_timeOpen a) (o_timeOpen b) = true) l
    /\ forall d, In d l -> exists r, In r rs /\ row_to_dict r = Ok d.
Proof.
  intros Hn Hp Hg Hk Hr.
  destruct (fetchers_on_rows L get token n interval pair res key rs
              Hn Hp Hg Hk Hr) as [EK _].
  eexists. split; [exact EK|]. split; [|split].
  - rewrite (Permutation_length (list_sort_perm _ _)).
    pose proof (rows_to_dicts_length L (last_n n rs)).
    pose proof (last_n_length n rs Hn). lia.
  - apply list_sort_sorted.
  - intros d Hd.
    apply (Permutation_in _ (list_sort_perm _ _)) in Hd.
    apply rows_to_dicts_In in Hd as (r & Hin & E).
    exists r. split; [now apply (last_n_In n)|exact E].
Qed.

Lemma kraken_fetcher_returns_on_rows_witness :
  exists l,
    Kraken.get_recent_candles test_python
      (serving [good_row 1710000000; bad_row; good_row 1710086400])
      "SOLUSD" 2 1440 = Ok l
    /\ (List.length l <= Z.to_nat 2)%nat
    /\ Sorted (fun a b => String.leb (o_timeOpen a) (o_timeOpen b) = true) l
    /\ forall d, In d l ->
         exists r,
           In r [good_row 1710000000; bad_row; good_row 1710086400]
           /\ row_to_dict r = Ok d.
Proof.
  apply (kraken_fetcher_returns_on_rows test_python
           (serving [good_row 1710000000; bad_row; good_row 1710086400])
           "SOLUSD" 2 1440 "SOLUSD"
           [("SOLUSD", Rows [good_row 1710000000; bad_row;
                             good_row 1710086400]);
            ("last", Scalar true)] "SOLUSD");
    [lia | reflexivity | reflexivity | reflexivity | reflexivity].
Defined.

(** When the fetcher of sol_fetch returns for a count of at least 1, it
    returns exactly min(n, number of rows) candles, in ascending order of
    timeOpen. *)
Theorem sol_fetcher_returns_last_n (L : pylib) (get : http_t L)
    (token : string) (n interval : Z) (pair : string)
    (res : list (string * jvalue L)) (key : string)
    (rs : list (list (field L))) (l : list ohlcv) :
  0 < n ->
  SolFetch._norm_token token = Ok pair ->
  get pair interval = Data false res ->
  find_key pair res = Ok key ->
  rows_of key res = Ok rs ->
  SolFetch.get_recent_candles L get token n interval = Ok l ->
  List.length l = Nat.min (Z.to_nat n) (List.length rs)
  /\ Sorted (fun a b => String.leb (o_timeOpen a) (o_timeOpen b) = true) l.
Proof.
  intros Hn Hp Hg Hk Hr. unfold SolFetch.get_recent_candles.
  rewrite Hp. cbn [bind]. rewrite Hg, Hk. cbn [bind]. rewrite Hr.
  cbn [bind].
  destruct (mapM row_to_dict (last_n n rs)) as [ds|e] eqn:E;
    cbn [bind]; [|discriminate].
  intros H; inversion H; subst l. split.
  - rewrite (Permutation_length (list_sort_perm _ _)).
    rewrite (mapM_length _ _ _ E). now apply last_n_length.
  - apply list_sort_sorted.
Qed.

Lemma sol_fetcher_returns_last_n_witness :
  List.length
    [ {| o_timeOpen := "1710086400";
         o_open := Fin (inject_Z 150); o_high := Fin (inject_Z 151);
         o_low := Fin (inject_Z 149); o_close := Fin (inject_Z 150);
         o_volume := Fin (inject_Z 123) |} ]
  = Nat.min (Z.to_nat 1)
      (List.length [good_row 1710000000; good_row 1710086400])
  /\ Sorted (fun a b => String.leb (o_timeOpen a) (o_timeOpen b) = true)
       [ {| o_timeOpen := "1710086400";
            o_open := Fin (inject_Z 150); o_high := Fin (inject_Z 151);
            o_low := Fin (inject_Z 149); o_close := Fin (inject_Z 150);
            o_volume := Fin (inject_Z 123) |} ].
Proof.
  apply (sol_fetcher_returns_last_n test_python
           (serving [good_row 1710000000; good_row 1710086400])
           "SOLUSD" 1 1440 "SOLUSD"
           [("SOLUSD", Rows [good_row 1710000000; good_row 1710086400]);
            ("last", Scalar true)] "SOLUSD"
           [good_row 1710000000; good_row 1710086400]);
    [lia | reflexivity | reflexivity | reflexivity | reflexivity
    | reflexivity].
Defined.

(** For an interval of Kraken's set and a network that answers with JSON
    (or fails in transport), the shadowed first definition and the
    effective second definition of the Kraken module give the same
    outcome: they differ only in the interval check and in the message
    for a body that is not JSON. *)
Theorem kraken_definitions_agree_on_allowed_interval (L : pylib)
    (get : http_t L) (token : string) (n interval : Z) :
  existsb (Z.eqb interval) Kraken._ALLOWED_INTERVALS = true ->
  (forall pair, get pair interval <> InvalidJson) ->
  Kraken.get_recent_candles_line25 L get token n interval
  = Kraken.get_recent_candles_line92 L get token n interval.
Proof.
  intros Hi Hj.
  unfold Kraken.get_recent_candles_line25, Kraken.get_recent_candles_line92.
  rewrite Hi. cbn [negb].
  destruct (n <=? 0); [reflexivity|].
  destruct (Kraken._kraken_pair token) as [pair|e]; cbn [bind];
    [|reflexivity].
  specialize (Hj pair).
  destruct (get pair interval); try reflexivity. congruence.
Qed.

Lemma kraken_definitions_agree_on_allowed_interval_witness :
  existsb (Z.eqb 1440) Kraken._ALLOWED_INTERVALS = true
  /\ Kraken.get_recent_candles_line25 test_python
       (serving [good_row 1710000000]) "SOLUSD" 5 1440
     = Kraken.get_recent_candles_line92 test_python
         (serving [good_row 1710000000]) "SOLUSD" 5 1440.
Proof.
  split; [reflexivity|].
  apply (kraken_definitions_agree_on_allowed_interval test_python
           (serving [good_row 1710000000]) "SOLUSD" 5 1440);
    [reflexivity | intros pair; discriminate].
Defined.



Lemma token_functions_agree_witness :
  Kraken._kraken_pair "Sol-Usdt" = Ok "SOLUSDT"
  /\ SolFetch._norm_token "Sol-Usdt" = Ok "SOLUSDT".
Proof.
  split; [reflexivity|].
  apply (token_functions_agree "Sol-Usdt"). reflexivity.
Defined.

(** ** The feature columns: no look-ahead, constants, bounds *)

Lemma ewm_from_app alpha st l l' :
  exists st',
    ewm_from alpha st (l ++ l')
    = (ewm_from alpha st l ++ ewm_from alpha st' l')%list.
Proof.
  revert st; induction l as [|c l IH]; intros st; simpl.
  - now exists st.
  - destruct (IH (ewm_step alpha st c)) as [st' E].
    exists st'. now rewrite E.
Qed.

Lemma window_at_app w i (l l' : list cell) :
  (i < List.length l)%nat -> window_at w i (l ++ l') = window_at w i l.
Proof.
  intros Hi. unfold window_at. rewrite firstn_app.
  replace (S i - List.length l)%nat with 0%nat by lia.
  now rewrite firstn_0, app_nil_r.
Qed.

(** No feature looks ahead: the EMA, SMA and lag columns of a series
    extended by later candles begin with the columns of the series
    itself. *)
Theorem features_do_not_look_ahead (l later : list cell) (span : Z)
    (window k : nat) :
  firstn (List.length l) (_ema (l ++ later) span) = _ema l span
  /\ firstn (List.length l) (_sma (l ++ later) window) = _sma l window
  /\ firstn (List.length l) (shift k (l ++ later)) = shift k l.
Proof.
  split; [|split].
  - unfold _ema.
    destruct (ewm_from_app (2 / (inject_Z span + 1))%Q (None, 1%Q) l later)
      as [st' ->].
    rewrite firstn_app, ewm_from_length, Nat.sub_diag, firstn_0, app_nil_r.
    apply firstn_all2. now rewrite ewm_from_length.
  - unfold _sma. rewrite length_app, seq_app, map_app, firstn_app.
    rewrite length_map, length_seq, Nat.sub_diag, firstn_0, app_nil_r.
    rewrite firstn_all2 by (now rewrite length_map, length_seq).
    apply map_ext_in. intros i Hi. apply in_seq in Hi.
    rewrite window_at_app by lia. reflexivity.
  - unfold shift. rewrite firstn_firstn, length_app.
    replace (Nat.min (List.length l) (List.length l + List.length later))
      with (List.length l) by lia.
    rewrite app_assoc, firstn_app.
    replace (List.length l - List.length (repeat Missing k ++ l))%nat
      with 0%nat by (rewrite length_app; lia).
    now rewrite firstn_0, app_nil_r.
Qed.

Lemma ewm_from_constant alpha ow c n :
  ewm_from alpha (Some c, ow) (repeat (Num c) n) = repeat (Num c) n.
Proof.
  revert ow; induction n as [|n IH]; intros ow; simpl; [reflexivity|].
  rewrite Qeq_bool_refl. simpl. now rewrite IH.
Qed.


From Stdlib Require Import Lqa.

(** A number between [lo] and [hi]. *)
Definition in_range (lo hi : Q) (c : cell) : bool :=
  match c with
  | Num q => Qle_bool lo q && Qle_bool q hi
  | _ => false
  end.

Lemma in_range_num lo hi c :
  in_range lo hi c = true -> exists q, c = Num q /\ (lo <= q <= hi)%Q.
Proof.
  destruct c; simpl; try discriminate. intros H.
  apply andb_prop in H as [H1 H2].
  apply Qle_bool_iff in H1. apply Qle_bool_iff in H2. eauto.
Qed.

Lemma num_in_range lo hi q :
  (lo <= q <= hi)%Q -> in_range lo hi (Num q) = true.
Proof.
  intros [H1 H2]. simpl. apply andb_true_intro.
  split; now apply Qle_bool_iff.
Qed.

Lemma observations_in_range lo hi l :
  forallb (in_range lo hi) l = true ->
  Forall (fun q => (lo <= q <= hi)%Q) (observations l)
  /\ List.length (observations l) = List.length l.
Proof.
  induction l as [|c l IH]; simpl; [now split|].
  intros H. apply andb_prop in H as [Hc Hl].
  destruct (in_range_num _ _ _ Hc) as (q & -> & Hq).
  destruct (IH Hl) as [IH1 IH2]. simpl. split; [now constructor | lia].
Qed.

Lemma count_succ n :
  (inject_Z (Z.of_nat (S n)) == inject_Z (Z.of_nat n) + 1)%Q.
Proof.
  rewrite Nat2Z.inj_succ. unfold Z.succ. now rewrite inject_Z_plus.
Qed.

Lemma count_nonneg n : (0 <= inject_Z (Z.of_nat n))%Q.
Proof. unfold Qle. simpl. lia. Qed.

Lemma Qsum_in_range lo hi qs :
  Forall (fun q => (lo <= q <= hi)%Q) qs ->
  (inject_Z (Z.of_nat (List.length qs)) * lo <= Qsum qs
   /\ Qsum qs <= inject_Z (Z.of_nat (List.length qs)) * hi)%Q.
Proof.
  induction 1 as [|q qs [H1 H2] _ [IH1 IH2]].
  - cbn [List.length Qsum fold_right Z.of_nat].
    change (inject_Z 0) with 0%Q. split; lra.
  - cbn [List.length Qsum fold_right].
    fold (Qsum qs).
    pose proof (count_succ (List.length qs)) as E.
    set (c' := inject_Z (Z.of_nat (S (List.length qs)))) in *.
    set (c := inject_Z (Z.of_nat (List.length qs))) in *.
    split; nra.
Qed.

Lemma mean_min1_in_range lo hi l :
  forallb (in_range lo hi) l = true -> l <> [] ->
  in_range lo hi (mean_min1 l) = true.
Proof.
  intros H Hne. destruct (observations_in_range lo hi l H) as [Ho Hlen].
  unfold mean_min1.
  destruct (observations l) as [|q qs] eqn:E.
  - destruct l; [congruence | discriminate].
  - destruct (Qsum_in_range lo hi _ Ho) as [S1 S2].
    set (n := List.length qs) in *.
    assert (Hc : (0 < inject_Z (Z.of_nat (List.length (q :: qs))))%Q)
      by (unfold Qlt; simpl; lia).
    apply num_in_range. split.
    + apply Qle_shift_div_l; [exact Hc|]. rewrite Qmult_comm. exact S1.
    + apply Qle_shift_div_r; [exact Hc|]. rewrite Qmult_comm. exact S2.
Qed.

Lemma ewm_from_in_range lo hi alpha st l :
  (0 < alpha <= 1)%Q ->
  (0 < snd st)%Q ->
  match fst st with Some w => (lo <= w <= hi)%Q | None => True end ->
  forallb (in_range lo hi) l = true ->
  forallb (in_range lo hi) (ewm_from alpha st l) = true.
Proof.
  intros Ha. revert st; induction l as [|c l IH]; intros [w ow] Hw Hs H;
    simpl in *; [reflexivity|].
  apply andb_prop in H as [Hc Hl].
  destruct (in_range_num _ _ _ Hc) as (x & -> & Hx). simpl.
  destruct w as [w|]; simpl.
  - assert (Hnew : (lo <= (if Qeq_bool w x then w
                           else (ow * (1 - alpha) * w + alpha * x)
                                / (ow * (1 - alpha) + alpha)) <= hi)%Q).
    { destruct (Qeq_bool w x); [exact Hs|].
      assert (Ha0 : (0 <= ow * (1 - alpha))%Q) by nra.
      set (a := (ow * (1 - alpha))%Q) in *. clearbody a.
      assert (Hd : (0 < a + alpha)%Q) by lra.
      split.
      - apply Qle_shift_div_l; [exact Hd|]. nra.
      - apply Qle_shift_div_r; [exact Hd|]. nra. }
    pose proof (num_in_range _ _ _ Hnew) as R. simpl in R. rewrite R.
    apply IH; simpl; [lra | exact Hnew | exact Hl].
  - pose proof (num_in_range _ _ _ Hx) as R. simpl in R. rewrite R.
    apply IH; simpl; [exact Hw | exact Hx | exact Hl].
Qed.

Lemma span_alpha span :
  1 <= span -> (0 < 2 / (inject_Z span + 1) <= 1)%Q.
Proof.
  intros H. rewrite Zle_Qle in H.
  assert (Hd : (0 < inject_Z span + 1)%Q)
    by (change (inject_Z 1) with 1%Q in H; lra).
  change (inject_Z 1) with 1%Q in H. split.
  - apply Qlt_shift_div_l; [exact Hd | lra].
  - apply Qle_shift_div_r; [exact Hd | lra].
Qed.



(** ** add_features: what it assigns and what it leaves alone *)

(** The ten columns [add_features] assigns. *)
Definition assigned_columns : list string :=
  [ "close_ema3"; "low_ema3"; "open_sma3"; "open_sma7"; "volume_sma21";
    "high_lag1"; "high_lag2"; "low_lag1"; "low_lag2"; "close_lag3" ].

(** Feature building keeps every row and never touches a column it does
    not assign: the time, OHLCV and month columns (and any other column of
    the frame) hold the same values after it as before. *)
Theorem add_features_keeps_other_columns (df : frame) (name : string) :
  existsb (String.eqb name) assigned_columns = false ->
  col name (add_features df) = col name df
  /\ List.length (rows (add_features df)) = List.length (rows df).
Proof.
  intros H. split; [|apply add_features_length].
  unfold assigned_columns in H. cbn [existsb] in H.
  repeat (apply orb_false_elim in H as [?E H]).
  unfold add_features. cbv zeta.
  destruct (has_col "volume" _);
    repeat (rewrite col_set_col_other by assumption); reflexivity.
Qed.

Lemma add_features_keeps_other_columns_witness :
  col "high" (add_features days21) = col "high" days21
  /\ List.length (rows (add_features days21)) = List.length (rows days21).
Proof.
  apply (add_features_keeps_other_columns days21 "high"). reflexivity.
Defined.

Lemma add_features_lag_col df name source k :
  In (name, source, k)
     [ ("high_lag1", "high", 1%nat); ("high_lag2", "high", 2%nat);
       ("low_lag1", "low", 1%nat); ("low_lag2", "low", 2%nat);
       ("close_lag3", "close", 3%nat) ] ->
  col name (add_features df) = shift k (col source df).
Proof.
  intros Hin. unfold add_features. cbv zeta. simpl in Hin.
  repeat (destruct Hin as [Hin | Hin]; [inversion Hin; subst; clear Hin|]);
    try (destruct Hin);
    destruct (has_col "volume" _); frame_cols; reflexivity.
Qed.

(** The lag columns line up with earlier rows: on row i, high_lag1 and
    low_lag1 hold the high and low of row i - 1, high_lag2 and low_lag2
    those of row i - 2, close_lag3 the close of row i - 3; on the rows
    that have no such predecessor they are missing. *)
Theorem lag_features_read_earlier_rows (df : frame) (name source : string)
    (k i : nat) :
  In (name, source, k)
     [ ("high_lag1", "high", 1%nat); ("high_lag2", "high", 2%nat);
       ("low_lag1", "low", 1%nat); ("low_lag2", "low", 2%nat);
       ("close_lag3", "close", 3%nat) ] ->
  (i < List.length (rows df))%nat ->
  nth i (col name (add_features df)) Missing
  = if (i <? k)%nat then Missing else nth (i - k) (col source df) Missing.
Proof.
  intros Hin Hi. rewrite (add_features_lag_col df name source k Hin).
  apply shift_nth. now rewrite col_length.
Qed.

Lemma lag_features_read_earlier_rows_witness :
  nth 5 (col "close_lag3" (add_features days21)) Missing
  = if (5 <? 3)%nat then Missing else nth (5 - 3) (col "close" days21) Missing.
Proof.
  apply (lag_features_read_earlier_rows days21 "close_lag3" "close" 3 5).
  - simpl. tauto.
  - vm_compute. lia.
Defined.

Lemma filter_split_length {A} (p : A -> bool) l :
  (List.length (filter p l) + List.length (filter (fun a => negb (p a)) l)
   = List.length l)%nat.
Proof.
  induction l as [|a l IH]; simpl; [reflexivity|].
  destruct (p a); simpl; lia.
Qed.

Lemma filter_length_le {A} (p : A -> bool) l :
  (List.length (filter p l) <= List.length l)%nat.
Proof. pose proof (filter_split_length p l). lia. Qed.

Lemma sort_values_length k c rs :
  List.length (sort_values k c rs) = List.length rs.
Proof.
  unfold sort_values.
  rewrite length_app, (Permutation_length (sort_by_perm k _ _)).
  pose proof (filter_split_length (fun r : row => isna (r c)) rs). lia.
Qed.

Lemma normalize_touches_rows_count k df out :
  snd (ensure_time_and_sort k df "timeOpen" "time") = Ok out ->
  List.length (rows out) = List.length (rows df).
Proof.
  unfold ensure_time_and_sort.
  destruct (has_col "timeOpen" df).
  - destruct (to_datetime (col "timeOpen" df)); cbn [snd]; [|discriminate].
    intros H; inversion H; subst out.
    now rewrite rows_set_col_length; cbn [rows];
      rewrite sort_values_length, zip_upd_length.
  - destruct (has_col "time" df); cbn [snd]; [|discriminate].
    destruct (to_datetime _); cbn [snd]; [|discriminate].
    intros H; inversion H; subst out.
    now rewrite rows_set_col_length; cbn [rows];
      rewrite sort_values_length, !zip_upd_length.
Qed.

(** Whatever frame it is given, [_prepare_features] returns, when it
    returns, a frame of exactly the 15 schema columns in which no row has
    a missing value, and no more rows than it was given. *)
Theorem prepare_features_returns_complete_rows (k : sort_kind)
    (df X : frame) :
  snd (_prepare_features k df) = Ok X ->
  columns X = FINAL_FEATURES
  /\ Forall (fun r => complete FINAL_FEATURES r = true) (rows X)
  /\ (List.length (rows X) <= List.length (rows df))%nat.
Proof.
  unfold _prepare_features, build_features_from_ohlcv.
  destruct (negb _); [discriminate|].
  pose proof (normalize_touches_rows_count k df) as Hlen.
  destruct (ensure_time_and_sort k df "timeOpen" "time") as [caller r].
  cbn [snd] in *. destruct r as [out|e]; cbn [bind]; [|discriminate].
  intros H; inversion H; subst X; clear H. unfold select, dropna.
  cbn [rows columns]. split; [reflexivity|]. split.
  - apply Forall_forall. intros r Hr. now apply filter_In in Hr.
  - specialize (Hlen out eq_refl).
    pose proof (filter_length_le (complete FINAL_FEATURES)
                  (rows (add_features out))).
    rewrite add_features_length in *. lia.
Qed.

Lemma prepare_features_returns_complete_rows_witness :
  match snd (_prepare_features stable_kind days21) with
  | Ok X =>
      columns X = FINAL_FEATURES
      /\ Forall (fun r => complete FINAL_FEATURES r = true) (rows X)
      /\ (List.length (rows X) <= List.length (rows days21))%nat
  | Raise _ => False
  end.
Proof.
  destruct (snd (_prepare_features stable_kind days21)) as [X|e] eqn:E.
  - apply (prepare_features_returns_complete_rows stable_kind days21 X E).
  - vm_compute in E. discriminate.
Defined.

Lemma shift_num k l i :
  forallb is_num l = true -> (k <= i)%nat -> (i < List.length l)%nat ->
  is_num (nth i (shift k l) Missing) = true.
Proof.
  intros H Hk Hi. rewrite shift_nth by exact Hi.
  replace (i <? k)%nat with false by (symmetry; apply Nat.ltb_ge; lia).
  apply forallb_nth; [exact H | lia].
Qed.

(** From the fourth row on every schema column of the feature frame
    holds a number. *)
Lemma add_features_numeric df i name :
  has_col "volume" df = true ->
  numeric df = true ->
  (3 <= i < List.length (rows df))%nat ->
  In name FINAL_FEATURES ->
  is_num (nth i (col name (add_features df)) Missing) = true.
Proof.
  intros Hv Hn [Hi3 Hi] Hin. unfold numeric in Hn. simpl in Hn.
  repeat (apply andb_prop in Hn as [?H Hn]). clear Hn.
  rewrite (add_features_col df name Hv Hin).
  assert (Hlen : forall c, (i < List.length (col c df))%nat)
    by (intros c; now rewrite col_length).
  simpl in Hin.
  repeat (destruct Hin as [<- | Hin]); try (destruct Hin);
    unfold feature_column; simpl String.eqb; cbv iota;
    first [ apply shift_num; [assumption | lia | apply Hlen]
          | apply forallb_nth;
            [ first [ assumption | apply _ema_num; assumption
                    | apply _sma_num; [lia | assumption] ]
            | first [ rewrite _ema_length | rewrite _sma_length | idtac ];
              apply Hlen ] ].
Qed.

Lemma complete_row_is_numeric k tz df X :
  well_formed tz df = true ->
  snd (_prepare_features k df) = Ok X ->
  forall r, In r (rows X) ->
  forall name, In name FINAL_FEATURES -> is_num (r name) = true.
Proof.
  intros W EX r Hr name Hin.
  destruct (well_formed_normalized k tz df W) as (out & E & _ & Hl & Wo & No).
  pose proof (well_formed_cols tz out "volume" Wo ltac:(simpl; tauto)) as Hv.
  assert (HX : rows X = skipn 3 (rows (add_features out))).
  { destruct (prepare_features_ok k tz df W) as (out' & X' & E' & EX' & _).
    rewrite E in E'. inversion E'; subst out'.
    rewrite EX in EX'. inversion EX'; subst X'.
    revert EX. unfold _prepare_features, build_features_from_ohlcv.
    destruct (negb _); [discriminate|].
    destruct (ensure_time_and_sort k df "timeOpen" "time") as [caller r0].
    cbn [snd] in *. subst r0. cbn [bind]. intros H; inversion H.
    unfold select, dropna. cbn [rows].
    apply (filter_from_index _ (fun _ => Missing)).
    intros i Hi. rewrite add_features_length in Hi.
    now apply add_features_complete. }
  rewrite HX in Hr.
  apply In_nth with (d := fun _ : string => Missing) in Hr as (i & Hi & <-).
  rewrite length_skipn, add_features_length in Hi.
  rewrite nth_skipn, nth_row_col.
  apply add_features_numeric; try assumption. lia.
Qed.

(** ** POST /predict: how the steps compose, and what escapes *)

(** The mode a request is served under. *)
Definition served_mode (default_mode : string) (req : PredictRequest)
  : string :=
  lower (match target_mode req with
         | Some m => m
         | None => default_mode
         end).


(** A model that always raises. *)
Definition failing_model : model_t := fun _ => Raise (RuntimeError "boom").


(** The run: a failing model gives status 500. *)
Example predict_with_failing_model :
  predict stable_kind exp_at_zero failing_model "level" request25
  = Raise (HTTPException 500 detail_model_failed).
Proof. vm_compute. reflexivity. Qed.

Lemma mapM_parse_unparseable l :
  In (Text None) l ->
  mapM parse_cell l = Raise (ValueError "Unknown datetime string format").
Proof.
  induction l as [|c l IH]; simpl; [tauto|].
  intros [-> | Hin]; [reflexivity|].
  rewrite (IH Hin).
  destruct c as [|q|[[w tz]|]|w tz]; reflexivity.
Qed.

(** A request of at least 21 candles one of whose timeOpen strings does
    not parse as a timestamp is not answered with an HTTP error of the
    endpoint's own: the ValueError of the timestamp parser escapes
    [predict] as it is. *)
Theorem predict_unparseable_time_escapes (k : sort_kind)
    (np_exp : pyfloat -> pyfloat) (model : model_t) (default_mode : string)
    (req : PredictRequest) :
  (21 <= List.length (candles req))%nat ->
  existsb (fun c => match timeOpen c with None => true | Some _ => false end)
          (candles req) = true ->
  predict k np_exp model default_mode req
  = Raise (ValueError "Unknown datetime string format").
Proof.
  intros Hn Hbad. unfold predict.
  replace (List.length (candles req) <? 21)%nat with false
    by (symmetry; apply Nat.ltb_ge; lia).
  destruct (candles req) as [|c0 cs] eqn:Ec; [simpl in Hn; lia|].
  rewrite <- Ec in *.
  replace (forallb (fun c => has_col c (DataFrame (candles req)))
             ["timeOpen"; "open"; "high"; "low"; "close"]) with true
    by (rewrite Ec; reflexivity).
  cbn [negb]. unfold ensure_time_and_sort.
  replace (has_col "timeOpen" (DataFrame (candles req))) with true
    by (rewrite Ec; reflexivity).
  unfold to_datetime. rewrite mapM_parse_unparseable; [reflexivity|].
  unfold col, DataFrame. cbn [rows]. rewrite map_map.
  apply existsb_exists in Hbad as (c & Hin & Hc).
  apply in_map_iff. exists c. split; [|exact Hin].
  unfold dict. simpl. destruct (timeOpen c); [discriminate | reflexivity].
Qed.

(** Twenty-five candles, the first with a time that does not parse. *)
Definition request_bad_time : PredictRequest :=
  {| candles :=
       mkCandle None 1 1 1 1 (Some 1%Q) :: daily_candles 24;
     target_mode := None |}.

Lemma predict_unparseable_time_escapes_witness :
  (21 <= List.length (candles request_bad_time))%nat
  /\ predict stable_kind exp_at_zero (stub_model 1) "level" request_bad_time
     = Raise (ValueError "Unknown datetime string format").
Proof.
  split; [vm_compute; lia|].
  apply (predict_unparseable_time_escapes stable_kind exp_at_zero
           (stub_model 1) "level" request_bad_time).
  - vm_compute; lia.
  - reflexivity.
Defined.

(** ** The fetch-and-predict endpoints *)

(** A fetcher that returns no candle at all does not lead to the
    endpoints' "Insufficient history" error: the empty frame has no time
    column, and the ValueError of normalization escapes both
    endpoints. *)
Theorem empty_fetch_escapes (k : sort_kind) (np_exp : pyfloat -> pyfloat)
    (model : model_t) (default_mode : string) (date : cell)
    (mode : option string) :
  predict_sol k np_exp model default_mode (Some (Ok [])) mode
  = Raise (ValueError no_time_column)
  /\ predict_sol_at k np_exp model default_mode (Some (Ok [])) date mode
     = Raise (ValueError no_time_column).
Proof. split; reflexivity. Qed.

Lemma loc_length_le rs mask :
  (List.length (loc rs mask) <= List.length rs)%nat.
Proof.
  revert mask; induction rs as [|r rs IH]; intros [|b mask]; simpl;
    try lia.
  specialize (IH mask). destruct b; simpl; lia.
Qed.

Lemma anchor_cut_length df anchor cut :
  anchor_cut df anchor = Ok cut ->
  (21 <= List.length (rows cut) <= List.length (rows df))%nat.
Proof.
  unfold anchor_cut.
  destruct (to_datetime_utc (col "timeOpen" df)) as [ts|e]; cbn [bind];
    [|discriminate].
  destruct (negb _); [discriminate|]. cbn [rows].
  destruct (List.length (loc (rows df) _) <? 21)%nat eqn:E; [discriminate|].
  intros H; inversion H; subst cut. cbn [rows].
  apply Nat.ltb_ge in E. split; [exact E | apply loc_length_le].
Qed.

(** Whenever a fetch-and-predict endpoint answers, the answer is for
    SOLUSD and rests on at least 21 history rows: all the fetched candles
    for [predict_sol], and no more than the fetched candles for
    [predict_sol_at]. *)
Theorem served_history_at_least_21 (k : sort_kind)
    (np_exp : pyfloat -> pyfloat) (model : model_t) (default_mode : string)
    (fetch_candles : option (result (list Candle))) (date : cell)
    (mode : option string) (t : PredictTokenResponse) :
  (predict_sol k np_exp model default_mode fetch_candles mode = Ok t ->
   token t = "SOLUSD"
   /\ (21 <= history_rows_used t)%nat
   /\ exists cs, fetch_candles = Some (Ok cs)
                 /\ history_rows_used t = List.length cs)
  /\ (predict_sol_at k np_exp model default_mode fetch_candles date mode
      = Ok t ->
      token t = "SOLUSD"
      /\ (21 <= history_rows_used t)%nat
      /\ exists cs, fetch_candles = Some (Ok cs)
                    /\ (history_rows_used t <= List.length cs)%nat).
Proof.
  split.
  - unfold predict_sol.
    destruct fetch_candles as [[cs|e]|]; try discriminate.
    destruct (snd (ensure_time_and_sort k (DataFrame cs) "timeOpen" "time"))
      as [df|e] eqn:E; cbn [bind]; [|discriminate].
    destruct (List.length (rows df) <? 21)%nat eqn:El; [discriminate|].
    destruct (predict_on _ _ _ _ df) as [r|e]; cbn [bind]; [|discriminate].
    intros H; inversion H; subst t. cbn [token history_rows_used].
    apply Nat.ltb_ge in El.
    pose proof (normalize_touches_rows_count k _ _ E) as Hl.
    unfold DataFrame in Hl. cbn [rows] in Hl. rewrite length_map in Hl.
    split; [reflexivity|]. split; [exact El|]. exists cs. auto.
  - unfold predict_sol_at.
    destruct fetch_candles as [[cs|e]|]; try discriminate.
    destruct (snd (ensure_time_and_sort k (DataFrame cs) "timeOpen" "time"))
      as [df|e] eqn:E; cbn [bind]; [|discriminate].
    destruct (to_utc_cell date) as [a|e]; cbn [bind]; [|discriminate].
    destruct (anchor_cut df a) as [cut|e] eqn:Ec; cbn [bind];
      [|discriminate].
    destruct (predict_on _ _ _ _ cut) as [r|e]; cbn [bind]; [|discriminate].
    intros H; inversion H; subst t. cbn [token history_rows_used].
    pose proof (anchor_cut_length _ _ _ Ec) as [H1 H2].
    pose proof (normalize_touches_rows_count k _ _ E) as Hl.
    unfold DataFrame in Hl. cbn [rows] in Hl. rewrite length_map in Hl.
    split; [reflexivity|]. split; [exact H1|]. exists cs.
    split; [reflexivity | lia].
Qed.

Lemma served_history_at_least_21_witness :
  match predict_sol stable_kind exp_at_zero (stub_model 1) "level"
          (Some (Ok (daily_candles 25))) None with
  | Ok t =>
      token t = "SOLUSD"
      /\ (21 <= history_rows_used t)%nat
      /\ exists cs, Some (Ok (daily_candles 25)) = Some (Ok cs)
                    /\ history_rows_used t = List.length cs
  | Raise _ => False
  end.
Proof.
  destruct (predict_sol stable_kind exp_at_zero (stub_model 1) "level"
              (Some (Ok (daily_candles 25))) None) as [t|e] eqn:E.
  - apply (served_history_at_least_21 stable_kind exp_at_zero (stub_model 1)
             "level" (Some (Ok (daily_candles 25))) Missing None t).
    exact E.
  - vm_compute in E. discriminate.
Defined.

(** The instant of a candle whose time parses. *)
Definition candle_instant (c : Candle) : Z :=
  match timeOpen c with
  | Some (w, tz) => i8 w tz
  | None => 0
  end.

Lemma anchor_cut_everything df anchor :
  forallb (fun r : row => is_tstamp (r "timeOpen")) (rows df) = true ->
  forallb (at_or_before anchor) (rows df) = true ->
  (21 <= List.length (rows df))%nat ->
  anchor_cut df anchor = Ok df.
Proof.
  intros Ht Hall Hn. unfold anchor_cut, col.
  destruct (to_datetime_utc_tstamps _ Ht) as (ts & -> & Em). cbn [bind].
  assert (Emask : map (fun t => le_anchor t anchor) ts
                  = map (at_or_before anchor) (rows df)).
  { apply (f_equal (map (fun f : cell -> bool => f anchor))) in Em.
    rewrite !map_map in Em. exact Em. }
  rewrite Emask, loc_mask, (filter_all _ _ Hall).
  replace (existsb (fun b : bool => b) (map (at_or_before anchor) (rows df)))
    with true.
  2:{ symmetry. destruct (rows df) as [|r rs]; [simpl in Hn; lia|].
      simpl in *. apply andb_prop in Hall as [-> _]. reflexivity. }
  cbn [negb rows].
  replace (List.length (rows df) <? 21)%nat with false
    by (symmetry; apply Nat.ltb_ge; lia).
  destruct df; reflexivity.
Qed.

(** An anchor at or after the latest fetched candle changes nothing:
    for at least 21 well-formed fetched candles, [predict_sol_at] gives
    exactly what [predict_sol] gives. *)
Theorem anchor_after_all_candles_is_no_anchor (k : sort_kind)
    (np_exp : pyfloat -> pyfloat) (model : model_t) (default_mode : string)
    (tz : option Z) (cs : list Candle) (date : cell) (a : Z)
    (atz : option Z) (mode : option string) :
  (21 <= List.length cs)%nat ->
  forallb (candle_ok tz) cs = true ->
  to_utc_cell date = Ok (Tstamp a atz) ->
  forallb (fun c => candle_instant c <=? i8 a atz) cs = true ->
  predict_sol_at k np_exp model default_mode (Some (Ok cs)) date mode
  = predict_sol k np_exp model default_mode (Some (Ok cs)) mode.
Proof.
  intros Hn Hok Hdate Hle.
  assert (Hne : cs <> []) by (apply (nonempty_of_length _ 20); lia).
  pose proof (DataFrame_well_formed tz _ Hne Hok) as W.
  destruct (well_formed_normalized k tz _ W)
    as (series & E & Hr & Hl & Ws & _).
  assert (Hrows : (21 <= List.length (rows series))%nat).
  { rewrite Hl. unfold DataFrame. cbn [rows]. now rewrite length_map. }
  assert (Hts : forallb (fun r : row => is_tstamp (r "timeOpen"))
                        (rows series) = true).
  { destruct (normalization_gives_normalized k tz (DataFrame cs)
                (well_formed_cols tz _ "timeOpen" W ltac:(simpl; tauto))
                (well_formed_time_col tz _ W)) as (out & E' & N).
    rewrite E in E'. inversion E'; subst out.
    unfold normalized in N. now apply andb_prop in N as [N _]. }
  assert (Hall : forallb (at_or_before (Tstamp a atz)) (rows series) = true).
  { apply forallb_forall. rewrite Hr.
    apply (normalized_rows_forall k
             (fun x => at_or_before (Tstamp a atz) x = true)).
    intros r Hin. unfold DataFrame in Hin. cbn [rows] in Hin.
    apply in_map_iff in Hin as (c & <- & Hc).
    rewrite forallb_forall in Hle, Hok.
    specialize (Hle c Hc). specialize (Hok c Hc).
    unfold candle_ok in Hok. unfold candle_instant in Hle.
    unfold at_or_before, add_month, parse_time, upd, dict, tstamp_of.
    simpl. destruct (timeOpen c) as [[w tz']|]; [|discriminate].
    simpl. exact Hle. }
  unfold predict_sol_at, predict_sol. rewrite E. cbn [bind].
  rewrite Hdate. cbn [bind].
  rewrite (anchor_cut_everything series _ Hts Hall Hrows). cbn [bind].
  replace (List.length (rows series) <? 21)%nat with false
    by (symmetry; apply Nat.ltb_ge; lia).
  reflexivity.
Qed.

Lemma anchor_after_all_candles_is_no_anchor_witness :
  (21 <= List.length (daily_candles 25))%nat
  /\ forallb (candle_ok (Some 0)) (daily_candles 25) = true
  /\ to_utc_cell (Text (Some (86400 * 40, None)))
     = Ok (Tstamp (86400 * 40) (Some 0))
  /\ predict_sol_at stable_kind exp_at_zero (stub_model 1) "level"
       (Some (Ok (daily_candles 25))) (Text (Some (86400 * 40, None))) None
     = predict_sol stable_kind exp_at_zero (stub_model 1) "level"
         (Some (Ok (daily_candles 25))) None.
Proof.
  split; [vm_compute; lia|]. split; [vm_compute; reflexivity|].
  split; [reflexivity|].
  apply (anchor_after_all_candles_is_no_anchor stable_kind exp_at_zero
           (stub_model 1) "level" (Some 0) (daily_candles 25)
           (Text (Some (86400 * 40, None))) (86400 * 40) (Some 0) None).
  - vm_compute; lia.
  - vm_compute; reflexivity.
  - reflexivity.
  - vm_compute; reflexivity.
Defined.

(** ** ensure_time_and_sort: failure and the fallback column *)

(** A failed normalization (a time that does not parse, mixed zones)
    leaves the caller's frame exactly as it was when the time column
    existed; when the column was first copied from the fallback column,
    that copy stays in the caller's frame although the call failed. *)
Theorem failed_normalization_and_the_callers_frame (k : sort_kind)
    (df : frame) (time_col fallback_time_col : string) (e : exn) :
  snd (ensure_time_and_sort k df time_col fallback_time_col) = Raise e ->
  (has_col time_col df = true ->
   fst (ensure_time_and_sort k df time_col fallback_time_col) = df)
  /\ (has_col time_col df = false ->
      has_col fallback_time_col df = true ->
      fst (ensure_time_and_sort k df time_col fallback_time_col)
      = set_col time_col (col fallback_time_col df) df)
  /\ (has_col time_col df = false ->
      has_col fallback_time_col df = false ->
      fst (ensure_time_and_sort k df time_col fallback_time_col) = df
      /\ e = ValueError no_time_column).
Proof.
  unfold ensure_time_and_sort. intros H. split; [|split].
  - intros Hc. rewrite Hc in *.
    destruct (to_datetime (col time_col df)); [discriminate | reflexivity].
  - intros Hc Hf. rewrite Hc, Hf in *.
    destruct (to_datetime _); [discriminate | reflexivity].
  - intros Hc Hf. rewrite Hc, Hf in *. cbn [snd] in H.
    inversion H. split; reflexivity.
Qed.

(** A frame with a [time] column only, one of whose times does not
    parse. *)
Definition time_only_frame : frame :=
  {| columns := ["time"; "open"];
     rows := [ (fun c => if String.eqb c "time" then Text None else Num 1) ] |}.

Lemma failed_normalization_and_the_callers_frame_witness :
  snd (ensure_time_and_sort stable_kind time_only_frame "timeOpen" "time")
  = Raise (ValueError "Unknown datetime string format")
  /\ has_col "timeOpen" time_only_frame = false
  /\ has_col "time" time_only_frame = true
  /\ fst (ensure_time_and_sort stable_kind time_only_frame "timeOpen" "time")
     = set_col "timeOpen" (col "time" time_only_frame) time_only_frame.
Proof.
  split; [reflexivity|]. split; [reflexivity|]. split; [reflexivity|].
  destruct (failed_normalization_and_the_callers_frame stable_kind
              time_only_frame "timeOpen" "time"
              (ValueError "Unknown datetime string format") eq_refl)
    as (_ & H & _).
  apply H; reflexivity.
Defined.

Lemma has_col_set_col_same c vs df : has_col c (set_col c vs df) = true.
Proof.
  unfold has_col at 1; unfold set_col; cbn [columns].
  destruct (has_col c df) eqn:E; [exact E|].
  rewrite existsb_app. simpl. rewrite String.eqb_refl.
  now rewrite orb_true_r.
Qed.

Lemma ensure_time_and_sort_fallback k df :
  has_col "timeOpen" df = false ->
  has_col "time" df = true ->
  ensure_time_and_sort k df "timeOpen" "time"
  = ensure_time_and_sort k (set_col "timeOpen" (col "time" df) df)
                         "timeOpen" "time".
Proof.
  intros Hc Hf. unfold ensure_time_and_sort.
  rewrite Hc, Hf, has_col_set_col_same. reflexivity.
Qed.


(** Two rows with a [time] column only, out of order. *)
Definition fallback_frame : frame :=
  {| columns := ["time"; "open"];
     rows := [ (fun c => if String.eqb c "time"
                         then Text (Some (86400, None)) else Num 2);
               (fun c => if String.eqb c "time"
                         then Text (Some (0, None)) else Num 1) ] |}.


(** ** The feature row and the last known high come from one candle *)

Lemma sorted_perm_unique {A} (key : A -> Z) (l l' : list A) :
  StronglySorted (fun a b => key a < key b) l ->
  StronglySorted (fun a b => key a <= key b) l' ->
  Permutation l' l -> l' = l.
Proof.
  revert l'; induction l as [|a l IH]; intros l' Hs Hs' P.
  - apply Permutation_sym, Permutation_nil in P. exact P.
  - destruct l' as [|b t'].
    + apply Permutation_nil in P. discriminate.
    + inversion Hs as [|? ? Hsl Ha]; subst.
      inversion Hs' as [|? ? Hst Hb]; subst.
      assert (b = a).
      { assert (Hina : In a (b :: t'))
          by (apply (Permutation_in _ (Permutation_sym P)); now left).
        assert (Hinb : In b (a :: l))
          by (apply (Permutation_in _ P); now left).
        destruct Hina as [?|Hina]; [assumption|].
        destruct Hinb as [?|Hinb]; [congruence|].
        rewrite Forall_forall in Ha, Hb.
        specialize (Ha b Hinb). specialize (Hb a Hina). lia. }
      subst b. f_equal. apply IH; try assumption.
      now apply Permutation_cons_inv in P.
Qed.

Lemma sorted_nodup_strict {A} (key : A -> Z) (l : list A) :
  StronglySorted (fun a b => key a <= key b) l ->
  NoDup (map key l) ->
  StronglySorted (fun a b => key a < key b) l.
Proof.
  induction 1 as [|a l Hs IH Ha]; intros Hn; [constructor|].
  simpl in Hn. inversion Hn as [|? ? Hnotin Hn']; subst.
  constructor; [now apply IH|].
  apply Forall_forall. intros b Hb.
  rewrite Forall_forall in Ha. specialize (Ha b Hb).
  assert (key a <> key b).
  { intros E. apply Hnotin. rewrite E. now apply in_map. }
  lia.
Qed.

Lemma StronglySorted_map_in {A B} (R : A -> A -> Prop) (R' : B -> B -> Prop)
    (f : A -> B) l :
  (forall a b, In a l -> In b l -> R a b -> R' (f a) (f b)) ->
  StronglySorted R l -> StronglySorted R' (map f l).
Proof.
  intros HR Hs. induction Hs as [|a l Hs IH Ha]; simpl; constructor.
  - apply IH. intros x y Hx Hy. apply HR; now right.
  - apply Forall_map. apply Forall_forall. intros b Hb.
    rewrite Forall_forall in Ha.
    apply HR; [now left | now right | now apply Ha].
Qed.

Lemma last_nth {A} (l : list A) d :
  last l d = nth (List.length l - 1) l d.
Proof.
  induction l as [|a l IH]; [reflexivity|].
  destruct l as [|b l]; [reflexivity|].
  change (last (a :: b :: l) d) with (last (b :: l) d). rewrite IH.
  simpl. now rewrite Nat.sub_0_r.
Qed.

Lemma last_skipn {A} (l : list A) k d :
  (k < List.length l)%nat -> last (skipn k l) d = last l d.
Proof.
  intros H. rewrite !last_nth, nth_skipn, length_skipn. f_equal. lia.
Qed.

Lemma prepare_features_rows k tz df out :
  well_formed tz df = true ->
  snd (ensure_time_and_sort k df "timeOpen" "time") = Ok out ->
  snd (_prepare_features k df)
  = Ok {| columns := FINAL_FEATURES;
          rows := skipn 3 (rows (add_features out)) |}.
Proof.
  intros W E.
  destruct (well_formed_normalized k tz df W)
    as (out' & E' & _ & Hl & Wo & No).
  rewrite E in E'. inversion E'; subst out'.
  pose proof (well_formed_cols tz out "volume" Wo ltac:(simpl; tauto)) as Hv.
  unfold _prepare_features, build_features_from_ohlcv.
  replace (forallb (fun c => has_col c df) ["open"; "high"; "low"; "close"])
    with true.
  2:{ symmetry. apply forallb_forall. intros c Hc.
      apply (well_formed_cols tz df c W). simpl in *. tauto. }
  simpl negb. cbv iota.
  destruct (ensure_time_and_sort k df "timeOpen" "time") as [caller r].
  simpl in E. subst r. cbv [bind snd]. unfold select, dropna.
  cbn [rows columns]. do 2 f_equal.
  apply (filter_from_index _ (fun _ => Missing)).
  intros i Hi. rewrite add_features_length in Hi.
  now apply add_features_complete.
Qed.

(** What normalization leaves on every row: a timestamp in the zone, and
    the month of that timestamp. *)
Lemma normalized_rows_shape k tz rs :
  (forall r, In r rs -> in_zone tz (r "timeOpen") = true) ->
  forall x, In x (normalized_rows k rs) ->
    (exists w, x "timeOpen" = Tstamp w tz)
    /\ x "month" = dt_month (x "timeOpen").
Proof.
  intros H. apply normalized_rows_forall. intros r Hr.
  destruct (in_zone_tstamp _ _ (H r Hr)) as [_ [w Hw]].
  unfold add_month, parse_time, upd. simpl. rewrite Hw. eauto.
Qed.

(** Normalizing a normalized row changes none of its values. *)
Lemma renormalized_row tz (x : row) name :
  (exists w, x "timeOpen" = Tstamp w tz) ->
  x "month" = dt_month (x "timeOpen") ->
  add_month (parse_time x) name = x name.
Proof.
  intros [w Hw] Hm. unfold add_month, parse_time, upd.
  destruct (String.eqb name "month") eqn:E1.
  - apply String.eqb_eq in E1. subst name. simpl.
    rewrite Hw in *. simpl. now rewrite Hm.
  - destruct (String.eqb name "timeOpen") eqn:E2; [|reflexivity].
    apply String.eqb_eq in E2. subst name. rewrite Hw. reflexivity.
Qed.

Lemma renormalize_distinct k tz rs name :
  (forall x, In x rs ->
     (exists w, x "timeOpen" = Tstamp w tz)
     /\ x "month" = dt_month (x "timeOpen")) ->
  StronglySorted (fun a b => by_time a < by_time b) rs ->
  map (fun r : row => r name) (normalized_rows k rs)
  = map (fun r : row => r name) rs.
Proof.
  intros Hshape Hs. unfold normalized_rows.
  assert (Hkey : forall x, In x rs -> by_time (parse_time x) = by_time x).
  { intros x Hx. destruct (Hshape x Hx) as [[w Hw] _].
    unfold by_time, parse_time, upd. simpl. now rewrite Hw. }
  assert (Hs' : StronglySorted (fun a b => by_time a < by_time b)
                               (map parse_time rs)).
  { apply (StronglySorted_map_in
             (fun a b => by_time a < by_time b)); [|exact Hs].
    intros a b Ha Hb H. now rewrite (Hkey a Ha), (Hkey b Hb). }
  rewrite (sorted_perm_unique by_time (map parse_time rs)
             (sort_by k by_time (map parse_time rs)) Hs'
             (sort_by_sorted k by_time _) (sort_by_perm k by_time _)).
  rewrite !map_map. apply map_ext_in. intros x Hx.
  destruct (Hshape x Hx) as [H1 H2]. now apply (renormalized_row tz).
Qed.


